(** * virus-sim: the population table and the infection step

    A shallow embedding of [src/population.py] and [src/virus_util.py].

    The population is a NumPy array of shape [(size, 16)] holding binary64
    values.  A row is a [vec float 16] over Rocq's primitive floats (the
    kernel's IEEE 754 binary64, the same arithmetic NumPy runs), the table
    is the list of its rows.  Python exceptions are carried by a result
    type with its own bind. *)

From Stdlib Require Import ZArith Floats Lia.
From stdpp Require Import base list vector.

Set Warnings "-inexact-float".

(** ** Results and exceptions *)

(** The Python exceptions the modelled code can raise. *)
Inductive exn := IndexError | ValueError | OverflowError.

Inductive result (A : Type) :=
  | Ok (a : A)
  | Raise (e : exn).
Arguments Ok {A} a.
Arguments Raise {A} e.

#[global] Instance result_ret : MRet result := fun A a => Ok a.
#[global] Instance result_bind : MBind result := fun A B f m =>
  match m with
  | Ok a => f a
  | Raise e => Raise e
  end.
#[global] Instance result_fmap : FMap result := fun A B f m =>
  match m with
  | Ok a => Ok (f a)
  | Raise e => Raise e
  end.

Definition is_Ok {A} (m : result A) : Prop := exists a, m = Ok a.

(** ** binary64 helpers *)

(** Conversion of a Python [int] (or an int64 array element) to float64:
    round to nearest, ties to even. *)
Definition Z2F (z : Z) : float := SF2Prim (binary_normalize prec emax z 0 false).

(** The integer part of a finite float, towards zero. *)
Definition trunc_SF (x : spec_float) : option Z :=
  match x with
  | S754_zero _ => Some 0%Z
  | S754_finite s m e =>
      let a := if (0 <=? e)%Z then (Z.pos m * 2 ^ e)%Z
               else (Z.pos m / 2 ^ (- e))%Z in
      Some (if s then (- a)%Z else a)
  | S754_infinity _ => None
  | S754_nan => None
  end.

(** Python's [int(x)] on a float64 scalar: truncation towards zero,
    [ValueError] on NaN, [OverflowError] on an infinity. *)
Definition int_of_float (x : float) : result Z :=
  match Prim2SF x with
  | S754_nan => Raise ValueError
  | S754_infinity _ => Raise OverflowError
  | sf => match trunc_SF sf with Some z => Ok z | None => Raise ValueError end
  end.

(** Python's [float(z)], also the conversion of an [int] stored into a
    float64 array: the nearest float64, [OverflowError] when [z] is too
    large for one. *)
Definition float_of_int (z : Z) : result float :=
  match Prim2SF (Z2F z) with
  | S754_infinity _ => Raise OverflowError
  | _ => Ok (Z2F z)
  end.

(** NumPy's conversion of a float64 array element to a [bits]-bit signed
    integer ([astype(int)] with 64 bits, [np.int32] with 32): truncation
    towards zero where the value fits.  The conversion raises nothing:
    for NaN, an infinity or a value outside the range it stores the
    smallest integer of the type, which is what the conversion
    instruction of x86-64 returns. *)
Definition cast_int (bits : Z) (x : float) : Z :=
  match trunc_SF (Prim2SF x) with
  | Some z =>
      if ((- 2 ^ (bits - 1) <=? z) && (z <? 2 ^ (bits - 1)))%Z then z
      else (- 2 ^ (bits - 1))%Z
  | None => (- 2 ^ (bits - 1))%Z
  end.

(** [math.sqrt]: [ValueError] ("math domain error") on a negative
    argument; NaN and the zeros pass through. *)
Definition math_sqrt (x : float) : result float :=
  if (x <? 0)%float then Raise ValueError else Ok (PrimFloat.sqrt x).

(** ** NumPy array operations used by the sources *)

Abbreviation ndarray := (list (vec float 16)).

(** [a[:, c]] *)
Definition column (c : fin 16) (a : ndarray) : list float :=
  (fun r : vec float 16 => r !!! c) <$> a.

(** [a[:, c] = data] for a one-dimensional [data]: element-wise when the
    lengths agree, broadcast when [data] has exactly one element, and a
    [ValueError] (could not broadcast) otherwise. *)
Definition assign_column (c : fin 16) (data : list float) (a : ndarray)
  : result ndarray :=
  if decide (length data = length a) then
    Ok (zip_with (fun (r : vec float 16) v => vinsert c v r) a data)
  else
    match data with
    | [v] => Ok ((fun r : vec float 16 => vinsert c v r) <$> a)
    | _ => Raise ValueError
    end.

(** [xs[mask]] for a boolean mask computed from the same array as [xs]
    (so of the same length). *)
Fixpoint select {A} (mask : list bool) (xs : list A) : list A :=
  match mask, xs with
  | b :: mask', x :: xs' =>
      if b then x :: select mask' xs' else select mask' xs'
  | _, _ => []
  end.

(** Element-wise [&] of two boolean arrays. *)
Definition mask_and (m1 m2 : list bool) : list bool := zip_with andb m1 m2.

(** Index normalisation of [a[k]] on an axis of length [n]: a negative
    index counts from the end, anything outside [-n, n) is an
    [IndexError]. *)
Definition row_index (n : nat) (k : Z) : result nat :=
  if ((0 <=? k) && (k <? Z.of_nat n))%Z then Ok (Z.to_nat k)
  else if ((- Z.of_nat n <=? k) && (k <? 0))%Z then Ok (Z.to_nat (k + Z.of_nat n))
  else Raise IndexError.

(** [a[k][c]] *)
Definition getitem (a : ndarray) (k : Z) (c : fin 16) : result float :=
  i ← row_index (length a) k;
  match a !! i with
  | Some r => Ok (r !!! c)
  | None => Raise IndexError
  end.

(** [a[k][c] = v] *)
Definition setitem (a : ndarray) (k : Z) (c : fin 16) (v : float)
  : result ndarray :=
  i ← row_index (length a) k;
  Ok (alter (vinsert c v) i a).

(** [xs[k]] on a Python list, for a literal non-negative [k]. *)
Definition list_getitem (xs : list float) (k : nat) : result float :=
  match xs !! k with
  | Some x => Ok x
  | None => Raise IndexError
  end.

(** ** Column registry *)

(** Modelled from the spec: the module [person_properties_util] (imported
    as [index] by [virus_util.py]) is not among the sources.  The spec's
    column registry maps the attribute names, in the order of the data
    model, to the positions 0 to 15. *)
Module index.
Definition id : fin 16 := 0%fin.
Definition age : fin 16 := 1%fin.
Definition x_axis : fin 16 := 2%fin.
Definition y_axis : fin 16 := 3%fin.
Definition x_dir : fin 16 := 4%fin.
Definition y_dir : fin 16 := 5%fin.
Definition speed : fin 16 := 6%fin.
Definition active : fin 16 := 7%fin.
Definition at_destination : fin 16 := 8%fin.
Definition current_state : fin 16 := 9%fin.
Definition wander_x : fin 16 := 10%fin.
Definition wander_y : fin 16 := 11%fin.
Definition g_value : fin 16 := 12%fin.
Definition susceptibility : fin 16 := 13%fin.
Definition mortality_rate : fin 16 := 14%fin.
Definition mask_effectiveness : fin 16 := 15%fin.
End index.

(** ** [class Population] *)

Module Population.

Record t := mk { persons : ndarray }.

(** [__init__]: [np.zeros((size, 16))]. *)
Definition init (size : nat) : t :=
  {| persons := replicate size (vreplicate 16 0%float) |}.

(** The setters: [self.persons[:, c] = data]. *)
Definition set_column (c : fin 16) (data : list float) (self : t) : result t :=
  a ← assign_column c data (persons self); Ok {| persons := a |}.

Definition set_age := set_column 1%fin.
Definition set_x_axis := set_column 2%fin.
Definition set_current_state := set_column 8%fin.
Definition set_y_axis := set_column 3%fin.
Definition set_g_value := set_column 12%fin.
Definition set_speed := set_column 6%fin.
Definition set_at_destination := set_column 8%fin.
Definition set_active := set_column 7%fin.
Definition set_x_dir := set_column 4%fin.
Definition set_y_dir := set_column 5%fin.
Definition set_mask_effectiveness := set_column 15%fin.

(** The getters. *)
Definition get_x_axis (self : t) : list float := column 2%fin (persons self).
Definition get_y_axis (self : t) : list float := column 3%fin (persons self).
Definition get_current_state (self : t) : list float :=
  column 9%fin (persons self).
Definition get_person (self : t) : ndarray := persons self.

(** [self.persons[self.persons[:,9] == 1]]: a copy of the selected rows. *)
Definition get_all_infected (self : t) : ndarray :=
  select ((fun s => (s =? 1)%float) <$> column 9%fin (persons self))
         (persons self).

Definition get_all_healthy (self : t) : ndarray :=
  select ((fun s => (s =? 0)%float) <$> column 9%fin (persons self))
         (persons self).

Definition get_currently_active_info (self : t) : list float :=
  column 7%fin (persons self).

(** [initialize_id]: [ID = list(range(low, high))], a list of Python
    integers.  The assignment converts it to a float64 array, which fails
    with [OverflowError] on an integer too large for a float, and then
    stores it. *)
Definition range (low high : Z) : list Z :=
  (fun k => (low + Z.of_nat k)%Z) <$> seq 0 (Z.to_nat (high - low)).

Definition initialize_id (low high : Z) (self : t) : result t :=
  ID ← mapM float_of_int (range low high);
  set_column 0%fin ID self.


(** [initialize_positions]: [x_bound_list] and [y_bound_list] stand for
    the two vectors drawn by [np.random.uniform]; the bounds are only
    read to be passed to it. *)
Definition initialize_positions (x_bounds y_bounds : list float)
    (x_bound_list y_bound_list : list float) (self : t) : result t :=
  _ ← list_getitem x_bounds 0;
  _ ← list_getitem x_bounds 1;
  _ ← list_getitem y_bounds 0;
  _ ← list_getitem y_bounds 1;
  self' ← set_x_axis x_bound_list self;
  set_y_axis y_bound_list self'.

(** [g_value[g_value<0] = 0.00000] *)
Definition clamp_negative (g : float) : float :=
  if (g <? 0)%float then 0%float else g.

(** [initialize_g_value]: [normal] stands for the vector returned by
    [np.random.normal(loc=mean, scale=std_dev, size=size)]. *)
Definition initialize_g_value (normal : list float) (self : t) : result t :=
  let g_value := clamp_negative <$> normal in
  let g_value := cast_int 64 <$> g_value in
  set_g_value (Z2F <$> g_value) self.

(** [initialize_mask_eff]: [randint] stands for the vector returned by
    [np.random.randint(low=0, high=4, size=size)].  The four in-place
    replacements run one after the other on the same array. *)
Definition replace_eq (old new : Z) (tmp : list Z) : list Z :=
  (fun v => if (v =? old)%Z then new else v) <$> tmp.

Definition initialize_mask_eff (randint : list Z) (self : t) : result t :=
  let tmp := replace_eq 0 0 randint in
  let tmp := replace_eq 1 50 tmp in
  let tmp := replace_eq 2 70 tmp in
  let tmp := replace_eq 3 90 tmp in
  set_mask_effectiveness (Z2F <$> tmp) self.

(** [initialize_susceptibility] *)
Definition initialize_susceptibility (self : t) : result t :=
  let n := length (persons self) in
  let tmp :=
    zip_with (fun h m => ((h - m) / 100)%float)
             (replicate n 100%float) (column 15%fin (persons self)) in
  let tmp2 := replicate n 0.1%float in
  let tmp2 := zip_with PrimFloat.mul tmp tmp2 in
  a ← assign_column 13%fin tmp2 (persons self);
  Ok {| persons := a |}.

End Population.

(** ** [class Virus] *)

Module Virus.

(** The six statistics [__init__] reads from the configuration file
    (through [ConfigUtil], which is not among the sources). *)
Record t := mk {
  infection_range : float;
  k_value : float;
  reproduction_rate : float;
  mortality_rate : float;
  mask_effectiveness : float;
  recovery_time : float
}.

(** [find_nearby]: the id column under the conjunction of five masks.
    [x_bounds[1] > persons[:, c]] compares element-wise as [x < x_bounds[1]]. *)
Definition find_nearby (persons : ndarray) (x_bounds y_bounds : list float)
  : result (list float) :=
  x0 ← list_getitem x_bounds 0;
  let m1 := (fun x => (x0 <? x)%float) <$> column index.x_axis persons in
  x1 ← list_getitem x_bounds 1;
  let m2 := (fun x => (x <? x1)%float) <$> column index.x_axis persons in
  y0 ← list_getitem y_bounds 0;
  let m3 := (fun y => (y0 <? y)%float) <$> column index.y_axis persons in
  y1 ← list_getitem y_bounds 1;
  let m4 := (fun y => (y <? y1)%float) <$> column index.y_axis persons in
  let m5 := (fun s => (s =? 0)%float) <$> column index.current_state persons in
  Ok (select (mask_and (mask_and (mask_and (mask_and m1 m2) m3) m4) m5)
             (column 0%fin persons)).

(** [persons[int(idx[0])][c]] *)
Definition person_at (persons : ndarray) (idx : vec float 16) (c : fin 16)
  : result float :=
  k ← int_of_float (idx !!! 0%fin);
  getitem persons k c.

(** [[persons[int(idx[0])][c] - math.sqrt(self.infection_range),
      persons[int(idx[0])][c] + math.sqrt(self.infection_range)]] *)
Definition bounds (self : t) (persons : ndarray) (idx : vec float 16)
    (c : fin 16) : result (list float) :=
  x ← person_at persons idx c;
  r ← math_sqrt (infection_range self);
  let lo := (x - r)%float in
  x ← person_at persons idx c;
  r ← math_sqrt (infection_range self);
  Ok [lo; (x + r)%float].

(** The body of the inner loop, lines 48 to 51, for the candidate [i] and
    the draw [chance].  [and] evaluates its right operand only when the
    left one holds; [-=] reads the cell again after the state was written. *)
Definition infect_candidate (idx : vec float 16) (i chance : float)
    (persons : ndarray) : result ndarray :=
  if (chance <? 0.06)%float then
    g ← person_at persons idx index.g_value;
    if (0 <? g)%float then
      j ← int_of_float i;
      persons ← setitem persons j 9%fin 1%float;
      k ← int_of_float (idx !!! 0%fin);
      g ← getitem persons k index.g_value;
      setitem persons k index.g_value (g - 1)%float
    else Ok persons
  else Ok persons.

(** [for i in tmp]: [uniform n] is the [n]-th value that
    [np.random.uniform(low = 0, high = 1)] returns, [n] counts the draws
    made so far. *)
Fixpoint infect_candidates (idx : vec float 16) (tmp : list float)
    (uniform : nat -> float) (n : nat) (persons : ndarray)
  : result (ndarray * nat) :=
  match tmp with
  | [] => Ok (persons, n)
  | i :: tmp' =>
      persons ← infect_candidate idx i (uniform n) persons;
      infect_candidates idx tmp' uniform (S n) persons
  end.

(** One iteration of [for idx in infected_idx], lines 39 to 51. *)
Definition infect_turn (self : t) (idx : vec float 16)
    (uniform : nat -> float) (n : nat) (persons : ndarray)
  : result (ndarray * nat) :=
  x_bounds ← bounds self persons idx index.x_axis;
  y_bounds ← bounds self persons idx index.y_axis;
  tmp ← find_nearby persons x_bounds y_bounds;
  infect_candidates idx tmp uniform n persons.

Fixpoint infect_loop (self : t) (infected_idx : ndarray)
    (uniform : nat -> float) (n : nat) (persons : ndarray)
  : result (ndarray * nat) :=
  match infected_idx with
  | [] => Ok (persons, n)
  | idx :: rest =>
      '(persons, n) ← infect_turn self idx uniform n persons;
      infect_loop self rest uniform n persons
  end.

(** [infect]: [infected_idx] is a copy taken before the loop, [persons]
    is the population's own table, mutated in place and returned with the
    population.  The [print] of the number of infected writes to the
    standard output only and is left out. *)
Definition infect (self : t) (population : Population.t)
    (uniform : nat -> float) (n : nat) : result (Population.t * nat) :=
  let infected_idx := Population.get_all_infected population in
  let persons := Population.get_person population in
  '(persons, n) ← infect_loop self infected_idx uniform n persons;
  Ok (Population.mk persons, n).

End Virus.

(** The eleven setters of [Population], in source order. *)
Definition setters : list (list float -> Population.t -> result Population.t) :=
  [ Population.set_age; Population.set_x_axis; Population.set_current_state;
    Population.set_y_axis; Population.set_g_value; Population.set_speed;
    Population.set_at_destination; Population.set_active;
    Population.set_x_dir; Population.set_y_dir;
    Population.set_mask_effectiveness ].

(** ** Specification-level notions *)

(** A row lies strictly inside the box and is healthy. *)
Definition nearby_healthy (x0 x1 y0 y1 : float) (r : vec float 16) : bool :=
  (x0 <? r !!! index.x_axis)%float && (r !!! index.x_axis <? x1)%float
  && (y0 <? r !!! index.y_axis)%float && (r !!! index.y_axis <? y1)%float
  && (r !!! index.current_state =? 0)%float.

(** The cell at row [k] and column [c], if the row exists. *)
Definition cell (a : ndarray) (k : nat) (c : fin 16) : option float :=
  (fun r : vec float 16 => r !!! c) <$> a !! k.

(** Every individual's id is its row position, as [initialize_id(0, N)]
    leaves it. *)
Definition ids_are_positions (a : ndarray) : Prop :=
  forall k r, a !! k = Some r ->
    int_of_float (r !!! index.id) = Ok (Z.of_nat k).

(** Row [h] exists and is healthy (column 9 compares equal to 0). *)
Definition healthy_at (a : ndarray) (h : nat) : Prop :=
  exists s, cell a h index.current_state = Some s /\ (s =? 0)%float = true.

(** The integers 1 to [B] count down exactly in binary64: each is
    positive and one less is the float of the predecessor. *)
Definition counts_down_exactly (B : Z) : Prop :=
  forall n, (0 < n <= B)%Z ->
    (0 <? Z2F n)%float = true /\ (Z2F n - 1)%float = Z2F (n - 1).

Definition counts_down_check (B : Z) : bool :=
  forallb (fun n => (0 <? Z2F n)%float
                    && PrimFloat.Leibniz.eqb (Z2F n - 1)%float (Z2F (n - 1)))
          (seqZ 1 B).

(** The integers 0 to [B - 1] survive the conversion to float64 and
    back through [int]. *)
Definition ints_round_trip (B : Z) : Prop :=
  forall k, (0 <= k < B)%Z -> int_of_float (Z2F k) = Ok k.

Definition ints_round_trip_check (B : Z) : bool :=
  forallb (fun k => match int_of_float (Z2F k) with
                    | Ok z => (z =? k)%Z
                    | Raise _ => false
                    end)
          (seqZ 0 B).

(** The mask effectiveness [initialize_mask_eff] stores for the category
    [v]: [mask_effective_range[v]]. *)
Definition mask_effective_range (v : Z) : Z :=
  nth (Z.to_nat v) [0; 50; 70; 90]%Z 0%Z.

(** ** The infection step with a log *)

(** What one iteration of the outer loop did: the row its infector
    addresses, the ids [find_nearby] returned, and the rows it marked as
    infected, in order. *)
Record turn := mk_turn {
  infector : nat;
  candidates : list float;
  hits : list nat
}.

(** [Virus.infect] again, returning the log next to its result.  The log
    is never read by the computation. *)
Module Traced.

Definition infect_candidate (idx : vec float 16) (i chance : float)
    (persons : ndarray) : result (ndarray * list nat) :=
  if (chance <? 0.06)%float then
    g ← Virus.person_at persons idx index.g_value;
    if (0 <? g)%float then
      j ← int_of_float i;
      row ← row_index (length persons) j;
      persons ← setitem persons j 9%fin 1%float;
      k ← int_of_float (idx !!! 0%fin);
      g ← getitem persons k index.g_value;
      persons ← setitem persons k index.g_value (g - 1)%float;
      Ok (persons, [row])
    else Ok (persons, [])
  else Ok (persons, []).

Fixpoint infect_candidates (idx : vec float 16) (tmp : list float)
    (uniform : nat -> float) (n : nat) (persons : ndarray)
  : result (ndarray * nat * list nat) :=
  match tmp with
  | [] => Ok (persons, n, [])
  | i :: tmp' =>
      '(persons, h) ← infect_candidate idx i (uniform n) persons;
      '(persons, n, hs) ← infect_candidates idx tmp' uniform (S n) persons;
      Ok (persons, n, h ++ hs)
  end.

Definition infect_turn (self : Virus.t) (idx : vec float 16)
    (uniform : nat -> float) (n : nat) (persons : ndarray)
  : result (ndarray * nat * turn) :=
  x_bounds ← Virus.bounds self persons idx index.x_axis;
  y_bounds ← Virus.bounds self persons idx index.y_axis;
  tmp ← Virus.find_nearby persons x_bounds y_bounds;
  k ← int_of_float (idx !!! 0%fin);
  row ← row_index (length persons) k;
  '(persons, n, hs) ← infect_candidates idx tmp uniform n persons;
  Ok (persons, n, mk_turn row tmp hs).

Fixpoint infect_loop (self : Virus.t) (infected_idx : ndarray)
    (uniform : nat -> float) (n : nat) (persons : ndarray)
  : result (ndarray * nat * list turn) :=
  match infected_idx with
  | [] => Ok (persons, n, [])
  | idx :: rest =>
      '(persons, n, t) ← infect_turn self idx uniform n persons;
      '(persons, n, ts) ← infect_loop self rest uniform n persons;
      Ok (persons, n, t :: ts)
  end.

Definition infect (self : Virus.t) (population : Population.t)
    (uniform : nat -> float) (n : nat)
  : result (Population.t * nat * list turn) :=
  let infected_idx := Population.get_all_infected population in
  let persons := Population.get_person population in
  '(persons, n, ts) ← infect_loop self infected_idx uniform n persons;
  Ok (Population.mk persons, n, ts).

End Traced.

(** ** The infection step by row position *)

(** The step as the specification words it: every individual is its row.
    For each row [k] infected when the call begins, the candidates are
    the rows that are healthy and strictly inside the box around row
    [k]'s own coordinates; a candidate [m] is marked when the draw is
    below 0.06 and row [k] still has a positive g_value, which is then
    decremented. *)
Module ByPosition.

(** The positions of the rows satisfying [f]. *)
Definition positions (f : vec float 16 -> bool) (a : ndarray) : list nat :=
  select (f <$> a) (seq 0 (length a)).

Definition infect_candidate (k m : nat) (chance : float) (a : ndarray)
  : ndarray * list nat :=
  match a !! k with
  | Some rk =>
      if (chance <? 0.06)%float && (0 <? rk !!! index.g_value)%float then
        let a := alter (vinsert index.current_state 1%float) m a in
        (alter (fun r : vec float 16 =>
                  vinsert index.g_value (r !!! index.g_value - 1)%float r) k a,
         [m])
      else (a, [])
  | None => (a, [])
  end.

Fixpoint infect_candidates (k : nat) (ms : list nat)
    (uniform : nat -> float) (n : nat) (a : ndarray)
  : ndarray * nat * list nat :=
  match ms with
  | [] => (a, n, [])
  | m :: ms' =>
      let '(a, h) := infect_candidate k m (uniform n) a in
      let '(a, n, hs) := infect_candidates k ms' uniform (S n) a in
      (a, n, h ++ hs)
  end.

Definition infect_turn (self : Virus.t) (k : nat)
    (uniform : nat -> float) (n : nat) (a : ndarray)
  : result (ndarray * nat * turn) :=
  match a !! k with
  | Some rk =>
      r ← math_sqrt (Virus.infection_range self);
      let x := rk !!! index.x_axis in
      let y := rk !!! index.y_axis in
      let near := nearby_healthy (x - r) (x + r) (y - r) (y + r) in
      let '(a', n, hs) :=
        infect_candidates k (positions near a) uniform n a in
      Ok (a', n,
          mk_turn k ((fun r : vec float 16 => r !!! index.id)
                       <$> List.filter near a) hs)
  | None => Raise IndexError
  end.

Fixpoint infect_loop (self : Virus.t) (ks : list nat)
    (uniform : nat -> float) (n : nat) (a : ndarray)
  : result (ndarray * nat * list turn) :=
  match ks with
  | [] => Ok (a, n, [])
  | k :: rest =>
      '(a, n, t) ← infect_turn self k uniform n a;
      '(a, n, ts) ← infect_loop self rest uniform n a;
      Ok (a, n, t :: ts)
  end.

Definition infect (self : Virus.t) (population : Population.t)
    (uniform : nat -> float) (n : nat)
  : result (Population.t * nat * list turn) :=
  let a := Population.persons population in
  let ks := positions (fun r => (r !!! index.current_state =? 1)%float) a in
  '(a, n, ts) ← infect_loop self ks uniform n a;
  Ok (Population.mk a, n, ts).

End ByPosition.

(** ** The infection step, candidate by candidate *)

(** What the loop body did for one candidate: the id [find_nearby]
    returned, the value drawn for it, and the table before and after. *)
Record step := mk_step {
  target : float;
  draw : float;
  before : ndarray;
  after : ndarray
}.

(** What one iteration of the outer loop did: the row of [infected_idx]
    it ran for, the table it started from, the ids [find_nearby]
    returned and the steps taken for them, in order. *)
Record turn_steps := mk_turn_steps {
  acting : vec float 16;
  at_start : ndarray;
  nearby : list float;
  steps : list step
}.

(** [Virus.infect] once more, built on the same loop body and returning
    the tables it went through.  The log is never read by the
    computation. *)
Module Stepwise.

Fixpoint infect_candidates (idx : vec float 16) (tmp : list float)
    (uniform : nat -> float) (n : nat) (persons : ndarray)
  : result (ndarray * nat * list step) :=
  match tmp with
  | [] => Ok (persons, n, [])
  | i :: tmp' =>
      persons' ← Virus.infect_candidate idx i (uniform n) persons;
      '(persons'', n', ss) ← infect_candidates idx tmp' uniform (S n) persons';
      Ok (persons'', n', mk_step i (uniform n) persons persons' :: ss)
  end.

Definition infect_turn (self : Virus.t) (idx : vec float 16)
    (uniform : nat -> float) (n : nat) (persons : ndarray)
  : result (ndarray * nat * turn_steps) :=
  x_bounds ← Virus.bounds self persons idx index.x_axis;
  y_bounds ← Virus.bounds self persons idx index.y_axis;
  tmp ← Virus.find_nearby persons x_bounds y_bounds;
  '(persons', n', ss) ← infect_candidates idx tmp uniform n persons;
  Ok (persons', n', mk_turn_steps idx persons tmp ss).

Fixpoint infect_loop (self : Virus.t) (infected_idx : ndarray)
    (uniform : nat -> float) (n : nat) (persons : ndarray)
  : result (ndarray * nat * list turn_steps) :=
  match infected_idx with
  | [] => Ok (persons, n, [])
  | idx :: rest =>
      '(persons, n, t) ← infect_turn self idx uniform n persons;
      '(persons, n, ts) ← infect_loop self rest uniform n persons;
      Ok (persons, n, t :: ts)
  end.

Definition infect (self : Virus.t) (population : Population.t)
    (uniform : nat -> float) (n : nat)
  : result (Population.t * nat * list turn_steps) :=
  let infected_idx := Population.get_all_infected population in
  let persons := Population.get_person population in
  '(persons, n, ts) ← infect_loop self infected_idx uniform n persons;
  Ok (Population.mk persons, n, ts).

End Stepwise.

(** The row [a[int(x)]] is: the position the id [x] addresses. *)
Definition row_of (a : ndarray) (x : float) : result nat :=
  j ← int_of_float x;
  row_index (length a) j.

(** The steps lead from the table [a] to the table [a'], each starting
    where the one before it ended. *)
Fixpoint steps_chain (a : ndarray) (ss : list step) (a' : ndarray) : Prop :=
  match ss with
  | [] => a' = a
  | st :: ss' => before st = a /\ steps_chain (after st) ss' a'
  end.

Fixpoint turns_chain (a : ndarray) (ts : list turn_steps) (a' : ndarray)
  : Prop :=
  match ts with
  | [] => a' = a
  | t :: ts' =>
      at_start t = a
      /\ exists a1, steps_chain a (steps t) a1 /\ turns_chain a1 ts' a'
  end.

(** The step for one candidate of the infector [idx] is as specified.
    The infector is row [k] and the candidate row [m], the rows carrying
    their ids; the candidate is healthy when its step begins; with [g]
    the infector's g_value at that moment, the candidate is marked
    (column 9 becomes 1) and the g_value becomes [g - 1] exactly when the
    draw is below 0.06 and [g] is above 0.  No other cell changes, and
    when a test fails the table is left as it was. *)
Definition step_ok (idx : vec float 16) (st : step) : Prop :=
  exists (k m : nat) (g : float),
    row_of (before st) (idx !!! index.id) = Ok k
    /\ cell (before st) k index.id = Some (idx !!! index.id)
    /\ row_of (before st) (target st) = Ok m
    /\ cell (before st) m index.id = Some (target st)
    /\ healthy_at (before st) m
    /\ cell (before st) k index.g_value = Some g
    /\ ((draw st <? 0.06)%float = true /\ (0 <? g)%float = true
        <-> cell (after st) m index.current_state = Some 1%float
            /\ cell (after st) k index.g_value = Some (g - 1)%float)
    /\ length (after st) = length (before st)
    /\ (forall r c, (r, c) <> (m, index.current_state) ->
                    (r, c) <> (k, index.g_value) ->
                    cell (after st) r c = cell (before st) r c)
    /\ ((draw st <? 0.06)%float = false \/ (0 <? g)%float = false ->
        after st = before st).

(** The turn of one infector is as specified: its candidates are what
    [find_nearby] returns on the table the turn starts from, for the box
    around the infector, and there is one step per candidate, in order. *)
Definition turn_ok (self : Virus.t) (t : turn_steps) : Prop :=
  exists x_bounds y_bounds,
    Virus.bounds self (at_start t) (acting t) index.x_axis = Ok x_bounds
    /\ Virus.bounds self (at_start t) (acting t) index.y_axis = Ok y_bounds
    /\ Virus.find_nearby (at_start t) x_bounds y_bounds = Ok (nearby t)
    /\ target <$> steps t = nearby t
    /\ Forall (step_ok (acting t)) (steps t).

(** [n] is the floor of [x], for a float [x] that is not negative: read
    off the mantissa [m] and exponent [e] of [x = m * 2^e]. *)
Definition is_floor_of (x : float) (n : Z) : Prop :=
  match Prim2SF x with
  | S754_zero _ => n = 0%Z
  | S754_finite false m e =>
      if (0 <=? e)%Z then n = (Z.pos m * 2 ^ e)%Z
      else (n * 2 ^ (- e) <= Z.pos m < (n + 1) * 2 ^ (- e))%Z
  | _ => False
  end.


(** The susceptibility [initialize_susceptibility] computes from a mask
    effectiveness, in binary64 arithmetic. *)
Definition susceptibility_of (m : float) : float :=
  ((100 - m) / 100 * 0.1)%float.

(** ** Sample populations *)

(** A row with the given id, position, disease state and g_value, zero
    elsewhere. *)
Definition person (id x y state g : float) : vec float 16 :=
  [# id; 0; x; y; 0; 0; 0; 0; 0; state; 0; 0; g; 0; 0; 0]%float.

(** One infected individual with g_value 1 and two healthy neighbours. *)
Definition sample_town : Population.t :=
  Population.mk [ person 0 0 0 1 1; person 1 1 1 0 0; person 2 0.5 (-1) 0 0 ].

(** Two individuals whose ids are exchanged: the infected one sits at the
    origin, the healthy one far away. *)
Definition swapped_town : Population.t :=
  Population.mk [ person 1 0 0 1 0; person 0 100 100 0 3 ].

(** An infected individual next to a healthy one whose id, 5, is the
    position of no row. *)
Definition stray_town : Population.t :=
  Population.mk [ person 0 0 0 1 1; person 5 1 1 0 0 ].

(** An infected individual whose g_value is one half. *)
Definition half_town : Population.t :=
  Population.mk [ person 0 0 0 1 0.5; person 1 1 1 0 0 ].

(** Ids counted from 1, as [initialize_id(1, 5)] leaves them: the only
    infected individual has g_value 0. *)
Definition shifted_town : Population.t :=
  Population.mk [ person 1 0 0 1 0; person 2 100 100 0 3;
                  person 3 100.5 100 0 0; person 4 500 500 0 0 ].

(** Two infected individuals and two healthy ones that carry the same
    id, 3. *)
Definition twin_town : Population.t :=
  Population.mk [ person 0 0 0 1 1; person 1 1 0 1 1;
                  person 3 0.5 0.5 0 0; person 3 50 50 0 0 ].

(** Two infected individuals with g_value 1 and two healthy neighbours. *)
Definition pair_town : Population.t :=
  Population.mk [ person 0 0 0 1 1; person 1 1 0 1 1;
                  person 2 0.5 0.5 0 0; person 3 0.5 (-0.5) 0 0 ].

Definition sample_virus : Virus.t := Virus.mk 4 0 0 0 0 0.

(** A random source that always returns [c]. *)
Definition always (c : float) : nat -> float := fun _ => c.

(** * Properties *)

#[local] Arguments vinsert : simpl never.
#[local] Arguments vector_lookup_total : simpl never.
#[local] Arguments Virus.find_nearby : simpl never.

(** ** Columns and column assignment *)

Section Columns.
Implicit Types (a : ndarray) (c : fin 16) (data : list float).

Lemma length_column c a : length (column c a) = length a.
Proof. unfold column. by rewrite length_fmap. Qed.

Lemma column_lookup c a k :
  column c a !! k = (fun r : vec float 16 => r !!! c) <$> a !! k.
Proof. unfold column. by rewrite list_lookup_fmap. Qed.

Lemma zip_insert_column_eq c a : forall data,
  length data = length a ->
  column c (zip_with (fun (r : vec float 16) v => vinsert c v r) a data) = data.
Proof.
  induction a as [|r a IH]; intros [|v data] Hlen; simplify_eq/=; try done.
  rewrite vlookup_insert. f_equal. by apply IH.
Qed.

Lemma zip_insert_column_ne c c' a : forall data,
  c <> c' -> length data = length a ->
  column c' (zip_with (fun (r : vec float 16) v => vinsert c v r) a data)
  = column c' a.
Proof.
  induction a as [|r a IH]; intros [|v data] Hne Hlen; simplify_eq/=; try done.
  rewrite vlookup_insert_ne by done. f_equal. by apply IH.
Qed.

Lemma assign_column_matching c data a :
  length data = length a ->
  assign_column c data a
  = Ok (zip_with (fun (r : vec float 16) v => vinsert c v r) a data).
Proof. intros Hlen. unfold assign_column. by rewrite decide_True. Qed.

Lemma assign_column_broadcast c v a :
  length a <> 1 ->
  assign_column c [v] a = Ok ((fun r : vec float 16 => vinsert c v r) <$> a).
Proof.
  intros Hlen. unfold assign_column. rewrite decide_False; [done|].
  simpl. lia.
Qed.

Lemma assign_column_mismatch c data a :
  length data <> length a -> length data <> 1 ->
  assign_column c data a = Raise ValueError.
Proof.
  intros Hlen H1. unfold assign_column. rewrite decide_False by done.
  destruct data as [|v [|w data]]; simpl in *; done.
Qed.

Lemma column_select c (mask : list bool) : forall a,
  column c (select mask a) = select mask (column c a).
Proof.
  induction mask as [|b mask IH]; intros [|r a]; try done.
  simpl. destruct b; simpl; by rewrite IH.
Qed.

Lemma select_fmap_filter {A B} (f : A -> bool) (g : A -> B) (xs : list A) :
  select (f <$> xs) (g <$> xs) = g <$> List.filter f xs.
Proof.
  induction xs as [|x xs IH]; [done|].
  rewrite !fmap_cons. cbn [select List.filter].
  destruct (f x); rewrite IH; done.
Qed.

End Columns.

(** ** Setters and getters of [Population] *)

Lemma set_column_matching c data self :
  length data = length (Population.persons self) ->
  exists self',
    Population.set_column c data self = Ok self'
    /\ column c (Population.persons self') = data
    /\ forall c', c <> c' ->
         column c' (Population.persons self')
         = column c' (Population.persons self).
Proof.
  intros Hlen. unfold Population.set_column.
  rewrite assign_column_matching by done. eexists; split; [done|]. simpl.
  split; [by apply zip_insert_column_eq|].
  intros c' Hne. by apply zip_insert_column_ne.
Qed.

(** C2: [set_current_state] and [set_at_destination] both write column 8
    and leave column 9 alone, while [get_current_state],
    [get_all_infected] and [get_all_healthy] are computed from column 9;
    so a call to [set_current_state] does not change what
    [get_current_state] returns, nor which rows the two queries select. *)
Theorem set_current_state_writes_column_8
    (self : Population.t) (data : list float) :
  length data = length (Population.persons self) ->
  exists s1 s2,
    Population.set_current_state data self = Ok s1
    /\ Population.set_at_destination data self = Ok s2
    /\ column 8%fin (Population.persons s1) = data
    /\ column 8%fin (Population.persons s2) = data
    /\ column 9%fin (Population.persons s1)
       = column 9%fin (Population.persons self)
    /\ column 9%fin (Population.persons s2)
       = column 9%fin (Population.persons self)
    /\ Population.get_current_state s1 = Population.get_current_state self
    /\ (forall s,
          Population.get_current_state s = column 9%fin (Population.persons s)
          /\ Population.get_all_infected s
             = select ((fun v => (v =? 1)%float)
                         <$> column 9%fin (Population.persons s))
                      (Population.persons s)
          /\ Population.get_all_healthy s
             = select ((fun v => (v =? 0)%float)
                         <$> column 9%fin (Population.persons s))
                      (Population.persons s))
    /\ (forall c, c <> 8%fin ->
          column c (Population.get_all_infected s1)
          = column c (Population.get_all_infected self)
          /\ column c (Population.get_all_healthy s1)
             = column c (Population.get_all_healthy self)).
Proof.
  intros Hlen.
  destruct (set_column_matching 8%fin data self Hlen) as (s & Hs & H8 & Hother).
  exists s, s. unfold Population.set_current_state, Population.set_at_destination.
  assert (H9 : column 9%fin (Population.persons s)
               = column 9%fin (Population.persons self)) by by apply Hother.
  split_and!; try done.
  intros c Hc. unfold Population.get_all_infected, Population.get_all_healthy.
  rewrite !column_select, H9, Hother; done.
Qed.

Lemma set_current_state_writes_column_8_witness :
  exists s1 s2,
    Population.set_current_state [1%float; 0%float] (Population.init 2) = Ok s1
    /\ Population.set_at_destination [1%float; 0%float] (Population.init 2)
       = Ok s2
    /\ column 8%fin (Population.persons s1) = [1%float; 0%float]
    /\ Population.get_current_state s1 = [0%float; 0%float].
Proof.
  destruct (set_current_state_writes_column_8 (Population.init 2)
              [1%float; 0%float] eq_refl)
    as (s1 & s2 & H1 & H2 & H8 & _ & _ & _ & Hget & _).
  exists s1, s2. split_and!; try done.
Defined.

Lemma set_get_round_trip c data self :
  length data = length (Population.persons self) ->
  exists self',
    Population.set_column c data self = Ok self'
    /\ column c (Population.persons self') = data.
Proof.
  intros Hlen.
  destruct (set_column_matching c data self Hlen) as (s & Hs & Hc & _).
  by exists s.
Qed.

(** C3 (on the failing input): on a fresh population of one individual,
    [set_current_state([1])] followed by [get_current_state()] returns
    [[0]], not the sequence that was set. *)
Theorem set_get_current_state_mismatch :
  exists s,
    Population.set_current_state [1%float] (Population.init 1) = Ok s
    /\ Population.get_current_state s = [0%float]
    /\ Population.get_current_state s <> [1%float].
Proof.
  eexists. split; [reflexivity|]. split; [reflexivity|].
  intros H. apply (f_equal (fmap Prim2SF)) in H. vm_compute in H.
  discriminate.
Qed.

(** ** Shape mismatch in the setters *)

Lemma setters_are_columns setter :
  In setter setters -> exists c, setter = Population.set_column c.
Proof.
  unfold setters. simpl. intros H.
  repeat (destruct H as [<-|H]; [eexists; reflexivity|]). done.
Qed.

(** C10 (as the code has it): no setter checks the length itself; a
    sequence whose length is neither the population size nor 1 fails with
    a [ValueError] at the assignment and nothing is written, while a
    sequence of length 1 is broadcast to every row of the column. *)
Theorem setter_length_mismatch
    (setter : list float -> Population.t -> result Population.t)
    (self : Population.t) (data : list float) :
  In setter setters ->
  length data <> length (Population.persons self) ->
  (length data <> 1 -> setter data self = Raise ValueError)
  /\ (forall v, data = [v] ->
        exists c self',
          setter data self = Ok self'
          /\ column c (Population.persons self')
             = replicate (length (Population.persons self)) v).
Proof.
  intros Hin Hlen. destruct (setters_are_columns _ Hin) as [c ->].
  unfold Population.set_column. split.
  - intros H1. by rewrite assign_column_mismatch.
  - intros v ->. exists c. rewrite assign_column_broadcast by done.
    eexists; split; [done|]. simpl.
    unfold column. rewrite <- list_fmap_compose.
    generalize (Population.persons self) as a. clear.
    induction a as [|r a IH]; [done|].
    simpl. rewrite vlookup_insert. by f_equal.
Qed.

Lemma setter_length_mismatch_witness :
  Population.set_g_value [1%float; 2%float] (Population.init 3)
  = Raise ValueError.
Proof.
  apply (setter_length_mismatch Population.set_g_value (Population.init 3)
           [1%float; 2%float]).
  - unfold setters. simpl. do 4 right. by left.
  - simpl. lia.
  - simpl. lia.
Defined.

(** C10 (counterexample): a sequence of length 1 given to [set_age] on a
    population of three is accepted and changes the table. *)
Lemma setter_length_one_is_broadcast :
  length [5%float] <> length (Population.persons (Population.init 3))
  /\ exists s,
       Population.set_age [5%float] (Population.init 3) = Ok s
       /\ column 1%fin (Population.persons s)
          = [5%float; 5%float; 5%float]
       /\ s <> Population.init 3.
Proof.
  split; [simpl; lia|].
  eexists. split; [reflexivity|]. split; [reflexivity|].
  intros H.
  apply (f_equal (fun s => Prim2SF <$> column 1%fin (Population.persons s))) in H.
  vm_compute in H. discriminate.
Qed.

(** ** The proximity query *)

Lemma mask_and_fmap {A} (f g : A -> bool) (xs : list A) :
  mask_and (f <$> xs) (g <$> xs) = (fun x => f x && g x) <$> xs.
Proof.
  unfold mask_and. induction xs as [|x xs IH]; [done|].
  rewrite !fmap_cons. simpl. by rewrite IH.
Qed.

Lemma find_nearby_filter (persons : ndarray) (x0 x1 y0 y1 : float)
    (xs ys : list float) :
  Virus.find_nearby persons (x0 :: x1 :: xs) (y0 :: y1 :: ys)
  = Ok ((fun r : vec float 16 => r !!! index.id)
          <$> List.filter (nearby_healthy x0 x1 y0 y1) persons).
Proof.
  unfold Virus.find_nearby, list_getitem. simpl. unfold column.
  rewrite <- !list_fmap_compose, !mask_and_fmap.
  f_equal. apply (select_fmap_filter _ _ persons).
Qed.

(** C4: [find_nearby] returns, in table order, the id (column 0) of
    exactly the rows with [x_bounds[0] < x < x_bounds[1]],
    [y_bounds[0] < y < y_bounds[1]] and disease state (column 9) equal to
    0; a row in any other state is not returned wherever it lies. *)
Theorem find_nearby_exact (persons : ndarray) (x0 x1 y0 y1 : float) :
  exists ids,
    Virus.find_nearby persons [x0; x1] [y0; y1] = Ok ids
    /\ ids = (fun r : vec float 16 => r !!! 0%fin)
               <$> List.filter
                     (fun r : vec float 16 =>
                        (x0 <? r !!! 2%fin)%float && (r !!! 2%fin <? x1)%float
                        && (y0 <? r !!! 3%fin)%float && (r !!! 3%fin <? y1)%float
                        && (r !!! 9%fin =? 0)%float)
                     persons
    /\ (forall j, In j ids <->
          exists r, In r persons /\ j = r !!! 0%fin
            /\ (x0 <? r !!! 2%fin)%float = true
            /\ (r !!! 2%fin <? x1)%float = true
            /\ (y0 <? r !!! 3%fin)%float = true
            /\ (r !!! 3%fin <? y1)%float = true
            /\ (r !!! 9%fin =? 0)%float = true).
Proof.
  eexists. split; [apply find_nearby_filter|]. split; [reflexivity|].
  intros j. rewrite <- list_elem_of_In, list_elem_of_fmap. split.
  - intros (r & -> & Hr). apply list_elem_of_In, filter_In in Hr.
    destruct Hr as [Hin Hb]. exists r. split; [done|]. split; [done|].
    unfold nearby_healthy, index.x_axis, index.y_axis,
      index.current_state in Hb.
    rewrite !andb_true_iff in Hb. tauto.
  - intros (r & Hin & -> & H1 & H2 & H3 & H4 & H5).
    exists r. split; [done|]. apply list_elem_of_In, filter_In.
    split; [done|].
    unfold nearby_healthy, index.x_axis, index.y_axis, index.current_state.
    by rewrite H1, H2, H3, H4, H5.
Qed.

(** ** The initializers *)

Lemma zip_with_replicate_l {A B C} (f : A -> B -> C) (x : A) (l : list B) :
  zip_with f (replicate (length l) x) l = f x <$> l.
Proof. induction l as [|y l IH]; [done|]. simpl. by rewrite IH. Qed.

Lemma zip_with_replicate_r {A B C} (f : A -> B -> C) (y : B) (l : list A) :
  zip_with f l (replicate (length l) y) = (fun x => f x y) <$> l.
Proof. induction l as [|x l IH]; [done|]. simpl. by rewrite IH. Qed.

Lemma initialize_susceptibility_stores_aux (self : Population.t) :
  exists self',
    Population.initialize_susceptibility self = Ok self'
    /\ column 13%fin (Population.persons self')
       = susceptibility_of <$> column 15%fin (Population.persons self).
Proof.
  unfold Population.initialize_susceptibility. cbv zeta.
  set (a := Population.persons self).
  rewrite <- (length_column 15%fin a).
  rewrite zip_with_replicate_l.
  rewrite <- (length_fmap (fun m => ((100 - m) / 100)%float) (column 15%fin a)).
  rewrite zip_with_replicate_r, <- list_fmap_compose.
  rewrite assign_column_matching
    by (by rewrite length_fmap, length_column).
  eexists. split; [reflexivity|]. cbn [Population.persons mbind result_bind].
  apply zip_insert_column_eq. by rewrite length_fmap, length_column.
Qed.

(** C8 (as the code has it): [initialize_susceptibility] stores, for
    every individual, the binary64 value of ((100 - m) / 100) * 0.1 for
    the mask effectiveness m read from column 15 into column 13, and
    changes no other column; for m = 0 that value is 0.1, for m = 90 it
    is 0.010000000000000002, one unit in the last place above 0.01. *)
Theorem initialize_susceptibility_stores (self : Population.t) :
  exists self',
    Population.initialize_susceptibility self = Ok self'
    /\ column 13%fin (Population.persons self')
       = (fun m => ((100 - m) / 100 * 0.1)%float)
           <$> column 15%fin (Population.persons self)
    /\ (forall c, c <> 13%fin ->
          column c (Population.persons self')
          = column c (Population.persons self))
    /\ ((100 - 0) / 100 * 0.1 = 0.1)%float
    /\ ((100 - 90) / 100 * 0.1 = 0.010000000000000002)%float
    /\ ((100 - 90) / 100 * 0.1 =? 0.01)%float = false.
Proof.
  unfold Population.initialize_susceptibility. cbv zeta.
  set (a := Population.persons self).
  rewrite <- (length_column 15%fin a).
  rewrite zip_with_replicate_l.
  rewrite <- (length_fmap (fun m => ((100 - m) / 100)%float) (column 15%fin a)).
  rewrite zip_with_replicate_r, <- list_fmap_compose.
  rewrite assign_column_matching
    by (by rewrite length_fmap, length_column).
  eexists. split; [reflexivity|]. simpl. split_and!.
  - apply zip_insert_column_eq. by rewrite length_fmap, length_column.
  - intros c Hc. apply zip_insert_column_ne; [done|].
    by rewrite length_fmap, length_column.
  - reflexivity.
  - reflexivity.
  - reflexivity.
Qed.

(** C8 (counterexample): with mask effectiveness 90 the stored
    susceptibility is not the binary64 value 0.01. *)
Lemma susceptibility_at_90_is_not_0_01 :
  exists s0 s,
    Population.set_mask_effectiveness [90%float] (Population.init 1) = Ok s0
    /\ Population.initialize_susceptibility s0 = Ok s
    /\ column 13%fin (Population.persons s) = [0.010000000000000002%float]
    /\ column 13%fin (Population.persons s) <> [0.01%float]
    /\ (0.010000000000000002 =? 0.01)%float = false.
Proof.
  eexists. eexists. split; [reflexivity|]. split; [reflexivity|].
  split; [reflexivity|]. split; [|reflexivity].
  intros H. apply (f_equal (fmap Prim2SF)) in H. vm_compute in H.
  discriminate.
Qed.

(** *** binary64 facts used below *)

Lemma Prim2SF_zero : Prim2SF 0%float = S754_zero false.
Proof. reflexivity. Qed.

Lemma Prim2SF_one : Prim2SF 1%float = S754_finite false 4503599627370496 (-52).
Proof. reflexivity. Qed.



Lemma Prim2SF_2p63 :
  Prim2SF 9223372036854775808%float = S754_finite false 4503599627370496 11.
Proof. reflexivity. Qed.

Lemma digits2_pos_bound (p : positive) :
  (Z.pos p < 2 ^ Z.pos (digits2_pos p))%Z.
Proof.
  induction p as [p IH|p IH|]; cbn [digits2_pos].
  - rewrite Pos2Z.inj_succ, Z.pow_succ_r by lia. lia.
  - rewrite Pos2Z.inj_succ, Z.pow_succ_r by lia. lia.
  - reflexivity.
Qed.

(** The mantissa of a float64 has at most 53 bits. *)
Lemma valid_mantissa_bound (x : float) (s : bool) (m : positive) (e : Z) :
  Prim2SF x = S754_finite s m e -> (Z.pos m < 2 ^ 53)%Z.
Proof.
  intros Hx. pose proof (Prim2SF_valid x) as Hv. rewrite Hx in Hv.
  unfold SpecFloat.valid_binary, bounded, canonical_mantissa, fexp, emin in Hv.
  apply andb_true_iff in Hv as [Hc _]. apply Z.eqb_eq in Hc.
  assert (Z.pos (digits2_pos m) <= 53)%Z as Hd.
  { unfold prec, emax in Hc. lia. }
  pose proof (digits2_pos_bound m) as Hm.
  eapply Z.lt_le_trans; [exact Hm|].
  apply Z.pow_le_mono_r; lia.
Qed.

(** A float that is not negative and below 2^63 has an integer part in
    the int64 range, and that integer part is its floor. *)
Lemma below_2p63_trunc (x : float) :
  (x <? 0)%float = false -> (x <? 9223372036854775808)%float = true ->
  exists z, trunc_SF (Prim2SF x) = Some z /\ (0 <= z < 2 ^ 63)%Z
            /\ is_floor_of x z.
Proof.
  rewrite !FloatAxioms.ltb_spec, Prim2SF_zero, Prim2SF_2p63.
  unfold is_floor_of.
  pose proof (valid_mantissa_bound x) as Hvalid.
  destruct (Prim2SF x) as [s|s| |s m e]; intros H0 H63.
  - exists 0%Z. split_and!; [done|lia|lia|done].
  - destruct s; discriminate.
  - discriminate.
  - destruct s; [discriminate H0|].
    specialize (Hvalid false m e eq_refl).
    unfold SFltb, SFcompare in H63.
    assert (e < 11 \/ (e = 11 /\ Z.pos m < 2 ^ 52))%Z as He.
    { destruct (Z.compare e 11) eqn:Hc.
      - right. apply Z.compare_eq in Hc. split; [done|].
        destruct (Pos.compare_cont Eq m 4503599627370496) eqn:Hm;
          try discriminate.
        pose proof (proj1 (Pos.compare_lt_iff m 4503599627370496) Hm) as Hlt.
        clear -Hlt. change (2 ^ 52)%Z with (Z.pos 4503599627370496).
        by apply Pos2Z.pos_lt_pos.
      - left. by apply Z.compare_lt_iff.
      - discriminate. }
    clear H0 H63. cbn [trunc_SF].
    destruct (0 <=? e)%Z eqn:Hpos.
    + apply Z.leb_le in Hpos. eexists. split_and!; [done| | |done].
      * apply Z.mul_nonneg_nonneg; [lia|]. by apply Z.pow_nonneg.
      * destruct He as [He|[-> Hm]].
        -- assert (2 ^ e <= 2 ^ 10)%Z by (apply Z.pow_le_mono_r; lia).
           assert (0 < 2 ^ e)%Z by (apply Z.pow_pos_nonneg; lia).
           change (2 ^ 63)%Z with (2 ^ 53 * 2 ^ 10)%Z. nia.
        -- change (2 ^ 63)%Z with (2 ^ 52 * 2 ^ 11)%Z. lia.
    + apply Z.leb_gt in Hpos.
      assert (0 < 2 ^ (- e))%Z as Hp by (apply Z.pow_pos_nonneg; lia).
      pose proof (Z.div_mod (Z.pos m) (2 ^ (- e))) as Hdm.
      pose proof (Z.mod_pos_bound (Z.pos m) (2 ^ (- e)) Hp) as Hmod.
      assert (0 <= Z.pos m / 2 ^ (- e))%Z as Hq by (apply Z.div_pos; lia).
      eexists. split_and!; [done|done| |nia|nia].
      assert (Z.pos m / 2 ^ (- e) <= Z.pos m)%Z.
      { apply Z.div_le_upper_bound; [done|]. nia. }
      lia.
Qed.

Lemma cast_int_fits (bits : Z) (x : float) (z : Z) :
  trunc_SF (Prim2SF x) = Some z ->
  (- 2 ^ (bits - 1) <= z < 2 ^ (bits - 1))%Z ->
  cast_int bits x = z.
Proof.
  intros Hz [Hlo Hhi]. unfold cast_int. rewrite Hz.
  apply Z.leb_le in Hlo. apply Z.ltb_lt in Hhi. by rewrite Hlo, Hhi.
Qed.

Lemma cast_int_clamp_below_2p63 (x : float) :
  (x <? 9223372036854775808)%float = true ->
  let n := cast_int 64 (Population.clamp_negative x) in
  (0 <= n < 2 ^ 63)%Z
  /\ ((x <? 0)%float = true -> n = 0%Z)
  /\ ((x <? 0)%float = false -> is_floor_of x n).
Proof.
  intros H63. unfold Population.clamp_negative.
  destruct (x <? 0)%float eqn:Hx; cbv zeta.
  - assert (cast_int 64 0 = 0%Z) as -> by reflexivity.
    split_and!; [lia|lia|done|done].
  - destruct (below_2p63_trunc x Hx H63) as (z & Hz & Hrange & Hfloor).
    rewrite (cast_int_fits 64 x z Hz) by (change (64 - 1)%Z with 63%Z; lia).
    split_and!; [lia|lia|done|done].
Qed.

(** C9, the claim as written fails: the conversion to integers raises
    nothing on a sample that does not fit int64 and stores the smallest
    int64, so a sample of 1e30 gives a negative g_value. *)
Lemma initialize_g_value_stores_negative :
  exists self',
    Population.initialize_g_value [1e30%float] (Population.init 1) = Ok self'
    /\ column 12%fin (Population.persons self')
       = [(-9223372036854775808)%float]
    /\ (-9223372036854775808 <? 0)%float = true.
Proof.
  eexists. split_and!; reflexivity.
Qed.

(** C9: for samples below 2^63 (which excludes NaN and +infinity),
    [initialize_g_value] replaces every sample below zero by 0.0, converts
    every sample to the integer at or below it and stores the integers
    with the g_value setter: every stored g_value is the float of an
    integer [n] with [0 <= n < 2^63], [n] is 0 for a sample below zero
    and the floor of the sample otherwise; no other column changes. *)
Theorem initialize_g_value_nonneg
    (self : Population.t) (normal : list float) :
  length normal = length (Population.persons self) ->
  Forall (fun s => (s <? 9223372036854775808)%float = true) normal ->
  exists self' ints,
    Population.initialize_g_value normal self = Ok self'
    /\ Population.set_g_value (Z2F <$> ints) self = Ok self'
    /\ column 12%fin (Population.persons self') = Z2F <$> ints
    /\ Forall2 (fun s n =>
                  (0 <= n < 2 ^ 63)%Z
                  /\ ((s <? 0)%float = true -> n = 0%Z)
                  /\ ((s <? 0)%float = false -> is_floor_of s n)) normal ints
    /\ forall c, c <> 12%fin ->
         column c (Population.persons self')
         = column c (Population.persons self).
Proof.
  intros Hlen Hbelow.
  set (ints := cast_int 64 <$> (Population.clamp_negative <$> normal)).
  assert (Hlen' : length (Z2F <$> ints) = length (Population.persons self)).
  { unfold ints. by rewrite !length_fmap. }
  destruct (set_column_matching 12%fin _ self Hlen') as (s & Hs & H12 & F).
  exists s, ints. split_and!; try done.
  - unfold ints. rewrite <- list_fmap_compose.
    apply Forall2_fmap_r, Forall_Forall2_diag.
    eapply Forall_impl; [exact Hbelow|].
    intros x Hx. unfold compose. by apply cast_int_clamp_below_2p63.
  - intros c Hc. by apply F.
Qed.

Lemma initialize_g_value_nonneg_witness :
  exists self' ints,
    Population.initialize_g_value [2.5%float; (-0.75)%float] (Population.init 2)
    = Ok self'
    /\ column 12%fin (Population.persons self') = Z2F <$> ints
    /\ Forall2 (fun s n =>
                  (0 <= n < 2 ^ 63)%Z
                  /\ ((s <? 0)%float = true -> n = 0%Z)
                  /\ ((s <? 0)%float = false -> is_floor_of s n))
               [2.5%float; (-0.75)%float] ints.
Proof.
  destruct (initialize_g_value_nonneg (Population.init 2)
              [2.5%float; (-0.75)%float] eq_refl)
    as (s & ints & Hs & _ & H12 & Hall & _).
  { repeat constructor. }
  by exists s, ints.
Defined.

(** Three samples: 2.5 is stored as 2, -0.75 as 0 and 7.99 as 7. *)
Lemma initialize_g_value_example :
  exists self',
    Population.initialize_g_value [2.5%float; (-0.75)%float; 7.99%float]
      (Population.init 3) = Ok self'
    /\ column 12%fin (Population.persons self')
       = [2%float; 0%float; 7%float]
    /\ is_floor_of 2.5 2 /\ is_floor_of 7.99 7 /\ ~ is_floor_of 7.99 8.
Proof.
  eexists. split_and!; try reflexivity.
  - vm_compute. by split.
  - vm_compute. by split.
  - vm_compute. intros [H _]. by apply H.
Qed.

(** ** Cells, rows and indices *)

Section Cells.
Implicit Types (a : ndarray) (c : fin 16) (k : nat) (v : float).

Lemma cell_Some a k c v :
  cell a k c = Some v <-> exists r, a !! k = Some r /\ r !!! c = v.
Proof.
  unfold cell. destruct (a !! k) as [r|]; simpl; split.
  - intros [= <-]. by exists r.
  - by intros (r' & [= <-] & ->).
  - done.
  - by intros (r' & ? & _).
Qed.

Lemma cell_lt a k c v : cell a k c = Some v -> k < length a.
Proof. intros (r & Hr & _)%cell_Some. by eapply lookup_lt_Some. Qed.

Lemma cell_alter_eq a k c v :
  k < length a -> cell (alter (vinsert c v) k a) k c = Some v.
Proof.
  intros Hk. unfold cell. rewrite list_lookup_alter, decide_True by done.
  destruct (lookup_lt_is_Some_2 a k Hk) as [r ->]. simpl.
  by rewrite vlookup_insert.
Qed.

Lemma cell_alter_ne a k k' c c' v :
  k <> k' \/ c <> c' ->
  cell (alter (vinsert c v) k a) k' c' = cell a k' c'.
Proof.
  intros Hne. unfold cell. rewrite list_lookup_alter.
  destruct (decide (k = k')) as [<-|]; [|done].
  destruct Hne as [|Hc]; [done|].
  destruct (a !! k) as [r|]; [|done]. simpl.
  by rewrite vlookup_insert_ne.
Qed.

Lemma row_index_of_nat n k : k < n -> row_index n (Z.of_nat k) = Ok k.
Proof.
  intros Hk. unfold row_index.
  destruct (_ && _) eqn:Hb.
  - by rewrite Nat2Z.id.
  - apply andb_false_iff in Hb as [Hb|Hb];
      [apply Z.leb_gt in Hb|apply Z.ltb_ge in Hb]; lia.
Qed.

Lemma row_index_lt n z r : row_index n z = Ok r -> r < n.
Proof.
  unfold row_index.
  destruct (_ && _) eqn:Hb.
  - intros [= <-]. apply andb_true_iff in Hb as [H1 H2].
    apply Z.leb_le in H1. apply Z.ltb_lt in H2. lia.
  - clear Hb. destruct (_ && _) eqn:Hb'; [|done].
    intros [= <-]. apply andb_true_iff in Hb' as [H1 H2].
    apply Z.leb_le in H1. apply Z.ltb_lt in H2. lia.
Qed.

Lemma getitem_cell a z r c v :
  row_index (length a) z = Ok r -> cell a r c = Some v ->
  getitem a z c = Ok v.
Proof.
  intros Hz (row & Hrow & <-)%cell_Some. unfold getitem.
  rewrite Hz. cbn. by rewrite Hrow.
Qed.

Lemma setitem_alter a z r c v :
  row_index (length a) z = Ok r ->
  setitem a z c v = Ok (alter (vinsert c v) r a).
Proof. intros Hz. unfold setitem. by rewrite Hz. Qed.

(** Reading a cell, subtracting one and writing it back. *)
Lemma alter_decrement a k g :
  cell a k index.g_value = Some g ->
  alter (fun r : vec float 16 =>
           vinsert index.g_value (r !!! index.g_value - 1)%float r) k a
  = alter (vinsert index.g_value (g - 1)%float) k a.
Proof.
  intros (r & Hr & <-)%cell_Some.
  apply list_eq. intros k'. rewrite !list_lookup_alter.
  destruct (decide (k = k')) as [<-|]; [|done]. by rewrite Hr.
Qed.

End Cells.

(** ** One candidate *)

(** The table after a successful infection of row [rj] by row [rk]. *)
Lemma infect_candidate_eval (idx : vec float 16) (i chance : float)
    (persons : ndarray) (k j : Z) (rk rj : nat) (g : float) :
  int_of_float (idx !!! 0%fin) = Ok k ->
  row_index (length persons) k = Ok rk ->
  int_of_float i = Ok j ->
  row_index (length persons) j = Ok rj ->
  cell persons rk index.g_value = Some g ->
  Traced.infect_candidate idx i chance persons
  = Ok (if (chance <? 0.06)%float && (0 <? g)%float
        then (alter (vinsert index.g_value (g - 1)%float) rk
                (alter (vinsert 9%fin 1%float) rj persons), [rj])
        else (persons, [])).
Proof.
  intros Hk Hrk Hj Hrj Hg.
  unfold Traced.infect_candidate, Virus.person_at.
  destruct (chance <? 0.06)%float; [|done].
  rewrite Hk. cbn. rewrite (getitem_cell _ _ _ _ _ Hrk Hg). cbn.
  destruct (0 <? g)%float; [|done]. cbn.
  rewrite Hj. cbn. rewrite Hrj. cbn.
  rewrite (setitem_alter _ _ _ _ _ Hrj). cbn.
  assert (Hg' : cell (alter (vinsert 9%fin 1%float) rj persons) rk
                  index.g_value = Some g).
  { rewrite cell_alter_ne; [done|]. right. by unfold index.g_value. }
  assert (Hrk' : row_index (length (alter (vinsert 9%fin 1%float) rj persons)) k
                 = Ok rk) by by rewrite length_alter.
  rewrite (getitem_cell _ _ _ _ _ Hrk' Hg'). cbn.
  by rewrite (setitem_alter _ _ _ _ _ Hrk').
Qed.

Lemma infect_candidate_erase (idx : vec float 16) (i chance : float)
    (persons : ndarray) :
  Virus.infect_candidate idx i chance persons
  = fst <$> Traced.infect_candidate idx i chance persons.
Proof.
  unfold Virus.infect_candidate, Traced.infect_candidate.
  destruct (chance <? 0.06)%float; [|done].
  destruct (Virus.person_at persons idx index.g_value) as [g|]; [|done]. cbn.
  destruct (0 <? g)%float; [|done].
  destruct (int_of_float i) as [j|]; [|done]. cbn.
  unfold setitem.
  destruct (row_index (length persons) j) as [rj|]; [|done]. cbn.
  destruct (int_of_float (idx !!! 0%fin)) as [k|]; [|done]. cbn.
  destruct (getitem _ k index.g_value) as [g'|]; [|done]. cbn.
  by destruct (row_index _ k).
Qed.

(** The loop body for the candidate [i] of the infector [idx], addressing
    rows [rj] and [rk]: it marks row [rj] as infected (column 9 := 1) and
    decrements the g_value of row [rk] by 1 exactly when the draw is
    below 0.06 and that g_value is above 0; it changes no other cell, and
    when either test fails it changes nothing. *)
Lemma infect_candidate_body (idx : vec float 16) (i chance : float)
    (persons : ndarray) (k j : Z) (rk rj : nat) (g s : float) :
  int_of_float (idx !!! 0%fin) = Ok k ->
  row_index (length persons) k = Ok rk ->
  int_of_float i = Ok j ->
  row_index (length persons) j = Ok rj ->
  cell persons rk 12%fin = Some g ->
  cell persons rj 9%fin = Some s ->
  (s =? 0)%float = true ->
  exists persons',
    Virus.infect_candidate idx i chance persons = Ok persons'
    /\ ((chance <? 0.06)%float = true /\ (0 <? g)%float = true
        <-> cell persons' rj 9%fin = Some 1%float
            /\ cell persons' rk 12%fin = Some (g - 1)%float)
    /\ length persons' = length persons
    /\ (forall r c, (r, c) <> (rj, 9%fin) -> (r, c) <> (rk, 12%fin) ->
          cell persons' r c = cell persons r c)
    /\ ((chance <? 0.06)%float = false \/ (0 <? g)%float = false ->
        persons' = persons).
Proof.
  intros Hk Hrk Hj Hrj Hg Hs Hs0.
  rewrite infect_candidate_erase,
    (infect_candidate_eval _ _ _ _ _ _ _ _ _ Hk Hrk Hj Hrj Hg).
  pose proof (row_index_lt _ _ _ Hrj) as Hltj.
  pose proof (row_index_lt _ _ _ Hrk) as Hltk.
  destruct (chance <? 0.06)%float, (0 <? g)%float; cbn;
    eexists; (split; [reflexivity|]).
  - split_and!; [split; [intros _|done]| | |by intros [|]].
    + split.
      * rewrite cell_alter_ne by (right; done).
        by apply cell_alter_eq.
      * apply cell_alter_eq. by rewrite length_alter.
    + by rewrite !length_alter.
    + intros r c Hj' Hk'.
      rewrite !cell_alter_ne; [done| |];
        destruct (decide (r = rj)), (decide (r = rk)),
          (decide (c = 9%fin)), (decide (c = 12%fin)); naive_solver.
  - split_and!; [split; [by intros [_ ?]|]|done|done|done].
    intros [H1 _]. rewrite Hs in H1. injection H1 as ->. done.
  - split_and!; [split; [by intros [? _]|]|done|done|done].
    intros [H1 _]. rewrite Hs in H1. injection H1 as ->. done.
  - split_and!; [split; [by intros [? _]|]|done|done|done].
    intros [H1 _]. rewrite Hs in H1. injection H1 as ->. done.
Qed.

(** ** The step by position: effect of the inner loop *)

Lemma infected_not_healthy (x : float) :
  (x =? 1)%float = true -> (x =? 0)%float = false.
Proof.
  rewrite !FloatAxioms.eqb_spec, Prim2SF_one, Prim2SF_zero.
  destruct (Prim2SF x) as [s|s| |s m e]; unfold SFeqb, SFcompare.
  - discriminate.
  - destruct s; discriminate.
  - discriminate.
  - intros _. destruct s; reflexivity.
Qed.

Lemma zero_not_positive (x : float) :
  (x =? 0)%float = true -> (0 <? x)%float = false.
Proof.
  rewrite FloatAxioms.eqb_spec, FloatAxioms.ltb_spec, Prim2SF_zero.
  destruct (Prim2SF x) as [s|s| |s m e]; unfold SFeqb, SFltb, SFcompare.
  - done.
  - destruct s; discriminate.
  - discriminate.
  - destruct s; discriminate.
Qed.

Lemma by_position_candidate_eq (k m : nat) (chance : float) (a : ndarray)
    (g : float) :
  cell a k index.g_value = Some g ->
  ByPosition.infect_candidate k m chance a
  = if (chance <? 0.06)%float && (0 <? g)%float
    then (alter (vinsert index.g_value (g - 1)%float) k
            (alter (vinsert 9%fin 1%float) m a), [m])
    else (a, []).
Proof.
  intros Hg. pose proof Hg as (rk & Hrk & <-)%cell_Some.
  unfold ByPosition.infect_candidate. rewrite Hrk.
  destruct (_ && _); [|done].
  rewrite (alter_decrement _ _ (rk !!! index.g_value)); [done|].
  rewrite cell_alter_ne; [done|]. right. by unfold index.current_state.
Qed.

Lemma by_position_candidate_None (k m : nat) (chance : float) (a : ndarray) :
  a !! k = None -> ByPosition.infect_candidate k m chance a = (a, []).
Proof. intros Hk. unfold ByPosition.infect_candidate. by rewrite Hk. Qed.

(** What one candidate step does to the cells. *)
Lemma by_position_candidate_effect (k m : nat) (chance : float)
    (a a' : ndarray) (h : list nat) :
  ByPosition.infect_candidate k m chance a = (a', h) ->
  length a' = length a
  /\ (forall r c, c <> 9%fin -> c <> 12%fin -> cell a' r c = cell a r c)
  /\ (forall r, r <> k -> cell a' r 12%fin = cell a r 12%fin)
  /\ (forall r, r ∉ h -> cell a' r 9%fin = cell a r 9%fin)
  /\ (forall r, r ∈ h -> r < length a -> cell a' r 9%fin = Some 1%float)
  /\ (h = [] \/ h = [m])
  /\ (h = [] -> a' = a)
  /\ (forall g, cell a k 12%fin = Some g ->
        (h = [] -> (chance <? 0.06)%float && (0 <? g)%float = false)
        /\ (h <> [] -> (0 <? g)%float = true
                       /\ cell a' k 12%fin = Some (g - 1)%float)).
Proof.
  destruct (cell a k index.g_value) as [g|] eqn:Hg.
  - rewrite (by_position_candidate_eq _ _ _ _ _ Hg).
    pose proof (cell_lt _ _ _ _ Hg) as Hk.
    destruct (_ && _) eqn:Hcond; intros [= <- <-].
    + apply andb_true_iff in Hcond as [_ Hpos].
      split_and!; try done.
      * by rewrite !length_alter.
      * intros r c H9 H12. rewrite !cell_alter_ne; [done| |]; by right.
      * intros r Hr. rewrite cell_alter_ne by by left.
        apply cell_alter_ne. by right.
      * intros r Hr. rewrite cell_alter_ne by by right.
        apply cell_alter_ne. left. intros ->. apply Hr. by left.
      * intros r ->%list_elem_of_singleton Hr.
        rewrite cell_alter_ne by by right. by apply cell_alter_eq.
      * by right.
      * intros g' Hg'. unfold index.g_value in Hg. simplify_eq.
        split; [done|]. intros _. split; [done|].
        apply cell_alter_eq. by rewrite length_alter.
    + split_and!; try done; [by intros r ?%elem_of_nil|by left|].
      intros g' Hg'. unfold index.g_value in Hg. by simplify_eq.
  - assert (a !! k = None) as Hk.
    { unfold cell in Hg. by destruct (a !! k). }
    rewrite (by_position_candidate_None _ _ _ _ Hk). intros [= <- <-].
    split_and!; try done; [by intros r ?%elem_of_nil|by left|].
    intros g' Hg'. unfold index.g_value in Hg. congruence.
Qed.

Lemma Z2F_zero : Z2F 0 = 0%float.
Proof. reflexivity. Qed.

(** What the inner loop does to the cells: only column 9 of the rows it
    hit and column 12 of the infector's row change. *)
Lemma by_position_candidates_effect (k : nat) (uniform : nat -> float)
    (ms : list nat) : forall (n : nat) (a a' : ndarray) (n' : nat) (hs : list nat),
  ByPosition.infect_candidates k ms uniform n a = (a', n', hs) ->
  length a' = length a
  /\ n' = n + length ms
  /\ (forall r c, c <> 9%fin -> c <> 12%fin -> cell a' r c = cell a r c)
  /\ (forall r, r <> k -> cell a' r 12%fin = cell a r 12%fin)
  /\ (forall r, r ∉ hs -> cell a' r 9%fin = cell a r 9%fin)
  /\ (forall r, r ∈ hs -> r < length a -> cell a' r 9%fin = Some 1%float)
  /\ hs `sublist_of` ms
  /\ (hs = [] -> a' = a).
Proof.
  induction ms as [|m ms IH]; intros n a a' n' hs.
  - intros [= <- <- <-]. split_and!; try done. by intros r ?%elem_of_nil.
  - cbn [ByPosition.infect_candidates].
    destruct (ByPosition.infect_candidate k m (uniform n) a) as [a1 h] eqn:E1.
    destruct (ByPosition.infect_candidates k ms uniform (S n) a1)
      as [[a2 n2] hs2] eqn:E2.
    intros [= <- <- <-].
    apply by_position_candidate_effect in E1
      as (L1 & F1 & G1 & S1 & H1 & Hh & Z1 & _).
    apply IH in E2 as (L2 & N2 & F2 & G2 & S2 & H2 & Sub2 & Z2).
    split_and!.
    + congruence.
    + simpl. lia.
    + intros r c H9 H12. by rewrite F2, F1.
    + intros r Hr. by rewrite G2, G1.
    + intros r Hr. apply not_elem_of_app in Hr as [Hr1 Hr2].
      by rewrite S2, S1.
    + intros r Hr Hlt. destruct (decide (r ∈ hs2)) as [Hin|Hnin].
      * apply H2; [done|]. by rewrite L1.
      * apply elem_of_app in Hr as [Hr|Hr]; [|done].
        rewrite S2 by done. by apply H1.
    + destruct Hh as [->| ->]; simpl.
      * by apply sublist_cons.
      * by apply sublist_skip.
    + intros [-> ->]%app_eq_nil. rewrite Z2, Z1; done.
Qed.

(** An infector whose g_value is not positive hits nobody. *)
Lemma by_position_candidates_exhausted (k : nat) (uniform : nat -> float)
    (g : float) (ms : list nat) :
  forall (n : nat) (a a' : ndarray) (n' : nat) (hs : list nat),
  ByPosition.infect_candidates k ms uniform n a = (a', n', hs) ->
  cell a k 12%fin = Some g -> (0 <? g)%float = false ->
  hs = [] /\ a' = a.
Proof.
  induction ms as [|m ms IH]; intros n a a' n' hs.
  - by intros [= <- <- <-].
  - cbn [ByPosition.infect_candidates].
    destruct (ByPosition.infect_candidate k m (uniform n) a) as [a1 h] eqn:E1.
    destruct (ByPosition.infect_candidates k ms uniform (S n) a1)
      as [[a2 n2] hs2] eqn:E2.
    intros [= <- <- <-] Hg Hpos.
    apply by_position_candidate_effect in E1
      as (_ & _ & _ & _ & _ & Hh & Z1 & C1).
    destruct (C1 g Hg) as [_ C1'].
    destruct Hh as [->| ->].
    + rewrite (Z1 eq_refl) in E2.
      by destruct (IH _ _ _ _ _ E2 Hg Hpos) as [-> ->].
    + destruct C1' as [Hpos' _]; [done|]. congruence.
Qed.

(** The hits of one turn are counted by the infector's g_value. *)
Lemma by_position_candidates_count (B : Z) (k : nat)
    (uniform : nat -> float) (ms : list nat) :
  counts_down_exactly B ->
  forall (n : nat) (a a' : ndarray) (n' : nat) (hs : list nat) (N : Z),
  ByPosition.infect_candidates k ms uniform n a = (a', n', hs) ->
  cell a k 12%fin = Some (Z2F N) -> (0 <= N <= B)%Z ->
  (Z.of_nat (length hs) <= N)%Z
  /\ cell a' k 12%fin = Some (Z2F (N - Z.of_nat (length hs))).
Proof.
  intros Hexact. induction ms as [|m ms IH]; intros n a a' n' hs N.
  - intros [= <- <- <-] Hg HN. simpl. split; [lia|].
    by rewrite Z.sub_0_r.
  - cbn [ByPosition.infect_candidates].
    destruct (ByPosition.infect_candidate k m (uniform n) a) as [a1 h] eqn:E1.
    destruct (ByPosition.infect_candidates k ms uniform (S n) a1)
      as [[a2 n2] hs2] eqn:E2.
    intros [= <- <- <-] Hg HN.
    apply by_position_candidate_effect in E1
      as (_ & _ & _ & _ & _ & Hh & Z1 & C1).
    destruct (C1 _ Hg) as [_ C1'].
    destruct Hh as [->| ->].
    + rewrite (Z1 eq_refl) in E2. simpl. by apply (IH _ _ _ _ _ _ E2).
    + destruct C1' as [Hpos Hg1]; [done|].
      assert (0 < N)%Z as HN0.
      { destruct (decide (N = 0%Z)) as [->|]; [|lia].
        rewrite Z2F_zero in Hpos. discriminate. }
      destruct (Hexact N) as [_ Hdec]; [lia|]. rewrite Hdec in Hg1.
      destruct (IH _ _ _ _ _ _ E2 Hg1) as [Hlen Hg2]; [lia|].
      rewrite length_app. simpl length. split; [lia|].
      rewrite Hg2. do 2 f_equal. lia.
Qed.

(** ** Positions *)

Lemma select_sublist {A} (mask : list bool) : forall xs : list A,
  select mask xs `sublist_of` xs.
Proof.
  induction mask as [|b mask IH]; intros [|x xs]; simpl; try done.
  - apply sublist_nil_l.
  - destruct b; [by apply sublist_skip|by apply sublist_cons].
Qed.

Lemma positions_NoDup (f : vec float 16 -> bool) (a : ndarray) :
  NoDup (ByPosition.positions f a).
Proof.
  unfold ByPosition.positions.
  eapply sublist_NoDup; [apply NoDup_seq|apply select_sublist].
Qed.

Lemma elem_of_select_seq {A} (f : A -> bool) (l : list A) : forall off m,
  m ∈ select (f <$> l) (seq off (length l))
  <-> exists j r, m = off + j /\ l !! j = Some r /\ f r = true.
Proof.
  induction l as [|x l IH]; intros off m.
  - simpl. split; [by intros ?%elem_of_nil|]. by intros (j & r & _ & ? & _).
  - rewrite fmap_cons. cbn [length seq select]. split.
    + destruct (f x) eqn:Hx.
      * intros [->|Hm]%elem_of_cons.
        -- exists 0, x. split_and!; [lia|done|done].
        -- apply IH in Hm as (j & r & -> & Hj & Hr).
           exists (S j), r. split_and!; [lia|done|done].
      * intros Hm. apply IH in Hm as (j & r & -> & Hj & Hr).
        exists (S j), r. split_and!; [lia|done|done].
    + intros (j & r & -> & Hj & Hr). destruct j as [|j].
      * simpl in Hj. injection Hj as ->. rewrite Hr.
        rewrite Nat.add_0_r. by left.
      * simpl in Hj.
        assert (off + S j ∈ select (f <$> l) (seq (S off) (length l))).
        { apply IH. exists j, r. split_and!; [lia|done|done]. }
        destruct (f x); [by right|done].
Qed.

Lemma elem_of_positions (f : vec float 16 -> bool) (a : ndarray) (m : nat) :
  m ∈ ByPosition.positions f a <-> exists r, a !! m = Some r /\ f r = true.
Proof.
  unfold ByPosition.positions. rewrite elem_of_select_seq. split.
  - intros (j & r & -> & ? & ?). by exists r.
  - intros (r & ? & ?). by exists m, r.
Qed.

(** ** The step by position: one turn *)

Lemma healthy_not_marked (a : ndarray) (h : nat) :
  healthy_at a h -> cell a h 9%fin <> Some 1%float.
Proof.
  intros (s & Hs & Hs0) H1. unfold index.current_state in Hs.
  rewrite Hs in H1. injection H1 as ->. done.
Qed.

Lemma ids_are_positions_frame (a a' : ndarray) :
  length a' = length a ->
  (forall r, cell a' r 0%fin = cell a r 0%fin) ->
  ids_are_positions a -> ids_are_positions a'.
Proof.
  intros Hlen Hid Hids k r' Hr'.
  assert (k < length a) as Hk.
  { rewrite <- Hlen. by eapply lookup_lt_Some. }
  destruct (lookup_lt_is_Some_2 a k Hk) as [r Hr].
  specialize (Hid k). unfold cell in Hid. rewrite Hr, Hr' in Hid.
  injection Hid as Hid. unfold index.id. rewrite Hid. by apply Hids.
Qed.

Lemma nearby_healthy_state (x0 x1 y0 y1 : float) (r : vec float 16) :
  nearby_healthy x0 x1 y0 y1 r = true -> (r !!! 9%fin =? 0)%float = true.
Proof.
  unfold nearby_healthy. rewrite !andb_true_iff. by intros [_ ?].
Qed.

Lemma by_position_turn_inv (self : Virus.t) (k : nat)
    (uniform : nat -> float) (n : nat) (a a' : ndarray) (n' : nat) (t : turn) :
  ByPosition.infect_turn self k uniform n a = Ok (a', n', t) ->
  exists rk r near,
    a !! k = Some rk
    /\ math_sqrt (Virus.infection_range self) = Ok r
    /\ near = nearby_healthy (rk !!! 2%fin - r) (rk !!! 2%fin + r)
                (rk !!! 3%fin - r) (rk !!! 3%fin + r)
    /\ infector t = k
    /\ candidates t
       = (fun r : vec float 16 => r !!! 0%fin) <$> List.filter near a
    /\ ByPosition.infect_candidates k (ByPosition.positions near a) uniform n a
       = (a', n', hits t).
Proof.
  unfold ByPosition.infect_turn.
  destruct (a !! k) as [rk|]; [|done].
  destruct (math_sqrt _) as [r|]; [|done]. cbn.
  destruct (ByPosition.infect_candidates _ _ _ _ _) as [[a1 n1] hs] eqn:E.
  intros [= <- <- <-]. exists rk, r. eexists. split_and!; try done.
Qed.

(** What one turn does, and whom it can hit. *)
Lemma by_position_turn_effect (self : Virus.t) (k : nat)
    (uniform : nat -> float) (n : nat) (a a' : ndarray) (n' : nat) (t : turn) :
  ByPosition.infect_turn self k uniform n a = Ok (a', n', t) ->
  ids_are_positions a ->
  infector t = k
  /\ k < length a
  /\ length a' = length a
  /\ (forall r c, c <> 9%fin -> c <> 12%fin -> cell a' r c = cell a r c)
  /\ (forall r, r <> k -> cell a' r 12%fin = cell a r 12%fin)
  /\ (forall r, r ∉ hits t -> cell a' r 9%fin = cell a r 9%fin)
  /\ (forall h, h ∈ hits t -> cell a' h 9%fin = Some 1%float /\ healthy_at a h)
  /\ (forall j h, j ∈ candidates t -> int_of_float j = Ok (Z.of_nat h) ->
        healthy_at a h)
  /\ NoDup (hits t).
Proof.
  intros (rk & r & near & Hrk & Hr & Hnear & Hinf & Hcand & Hloop)
    %by_position_turn_inv Hids.
  apply by_position_candidates_effect in Hloop
    as (L & _ & F & G & S & H & Sub & _).
  assert (forall h, h ∈ hits t -> h < length a /\ healthy_at a h) as Hhit.
  { intros h Hh. eapply elem_of_sublist in Hh; [|exact Sub].
    apply elem_of_positions in Hh as (rh & Hrh & Hn).
    split; [by eapply lookup_lt_Some|].
    exists (rh !!! 9%fin). split.
    - unfold cell. by rewrite Hrh.
    - rewrite Hnear in Hn. by eapply nearby_healthy_state. }
  split_and!; try done.
  - by eapply lookup_lt_Some.
  - intros h Hh. destruct (Hhit h Hh). split; [by apply H|done].
  - intros j h Hj Hjh. rewrite Hcand in Hj.
    apply list_elem_of_fmap in Hj as (rj & -> & Hrj).
    apply list_elem_of_In, filter_In in Hrj as [Hin Hn].
    apply list_elem_of_In, list_elem_of_lookup in Hin as [m Hm].
    pose proof (Hids m rj Hm) as Hid. unfold index.id in Hid.
    rewrite Hid in Hjh. injection Hjh as Hmh. apply Nat2Z.inj in Hmh as ->.
    exists (rj !!! 9%fin). split.
    + unfold cell. by rewrite Hm.
    + rewrite Hnear in Hn. by eapply nearby_healthy_state.
  - eapply sublist_NoDup; [apply positions_NoDup|exact Sub].
Qed.

(** ** The step by position: the whole loop *)

Lemma healthy_at_transfer (a a1 : ndarray) (t : turn) (h : nat) :
  (forall r, r ∉ hits t -> cell a1 r 9%fin = cell a r 9%fin) ->
  (forall h, h ∈ hits t -> cell a1 h 9%fin = Some 1%float /\ healthy_at a h) ->
  healthy_at a1 h -> healthy_at a h.
Proof.
  intros S H Hh. destruct (decide (h ∈ hits t)) as [Hin|Hnin].
  - by apply H.
  - destruct Hh as (s & Hs & Hs0). exists s. split; [|done].
    unfold index.current_state in *. by rewrite <- S.
Qed.

Lemma by_position_loop_effect (self : Virus.t) (uniform : nat -> float)
    (ks : list nat) :
  forall (n : nat) (a a' : ndarray) (n' : nat) (trace : list turn),
  ByPosition.infect_loop self ks uniform n a = Ok (a', n', trace) ->
  ids_are_positions a ->
  infector <$> trace = ks
  /\ length a' = length a
  /\ (forall r c, c <> 9%fin -> c <> 12%fin -> cell a' r c = cell a r c)
  /\ (forall r, r ∉ ks -> cell a' r 12%fin = cell a r 12%fin)
  /\ (forall r, (forall t, t ∈ trace -> r ∉ hits t) ->
        cell a' r 9%fin = cell a r 9%fin)
  /\ (forall t h, t ∈ trace -> h ∈ hits t ->
        cell a' h 9%fin = Some 1%float /\ healthy_at a h)
  /\ (forall t j h, t ∈ trace -> j ∈ candidates t ->
        int_of_float j = Ok (Z.of_nat h) -> healthy_at a h)
  /\ (forall pre t post, trace = pre ++ t :: post ->
        forall t0 h j, t0 ∈ pre -> h ∈ hits t0 -> j ∈ candidates t ->
          int_of_float j <> Ok (Z.of_nat h))
  /\ (forall t, t ∈ trace -> NoDup (hits t)).
Proof.
  induction ks as [|k ks IH]; intros n a a' n' trace.
  - intros [= <- <- <-] _. split_and!; try done.
    + by intros t h ?%elem_of_nil.
    + by intros t j h ?%elem_of_nil.
    + by intros [|] ? ? ?.
    + by intros t ?%elem_of_nil.
  - cbn [ByPosition.infect_loop].
    destruct (ByPosition.infect_turn self k uniform n a)
      as [[[a1 n1] t1]|] eqn:E1; [|done]. cbn.
    destruct (ByPosition.infect_loop self ks uniform n1 a1)
      as [[[a2 n2] ts]|] eqn:E2; [|done]. cbn.
    intros [= <- <- <-] Hids.
    apply by_position_turn_effect in E1
      as (Hinf & Hk & L1 & F1 & G1 & S1 & H1 & C1 & D1); [|done].
    assert (ids_are_positions a1) as Hids1.
    { eapply ids_are_positions_frame; [exact L1| |exact Hids].
      intros r. by apply F1. }
    apply IH in E2 as (I2 & L2 & F2 & G2 & S2 & H2 & C2 & P2 & D2); [|done].
    assert (forall h, healthy_at a1 h -> healthy_at a h) as Htr.
    { intros h. by apply (healthy_at_transfer a a1 t1). }
    assert (forall h, h ∈ hits t1 -> forall t, t ∈ ts -> h ∉ hits t) as Hlater.
    { intros h Hh t Ht Hin. destruct (H1 h Hh) as [Hm _].
      destruct (H2 t h Ht Hin) as [_ Hhealthy].
      by apply healthy_not_marked in Hhealthy. }
    split_and!.
    + rewrite fmap_cons. by rewrite Hinf, I2.
    + congruence.
    + intros r c H9 H12. by rewrite F2, F1.
    + intros r Hr. apply not_elem_of_cons in Hr as [Hrk Hr].
      by rewrite G2, G1.
    + intros r Hr. rewrite S2, S1; [done| |].
      * apply Hr. by left.
      * intros t Ht. apply Hr. by right.
    + intros t h [->|Ht]%elem_of_cons Hh.
      * destruct (H1 h Hh) as [Hm Hhealthy]. split; [|done].
        rewrite S2; [done|]. by apply Hlater.
      * destruct (H2 t h Ht Hh) as [Hm Hhealthy]. split; [done|].
        by apply Htr.
    + intros t j h [->|Ht]%elem_of_cons Hj Hjh.
      * by eapply C1.
      * apply Htr. by eapply C2.
    + intros [|t1' pre] t post Heq t0 h j Ht0 Hh Hj;
        [by apply elem_of_nil in Ht0|].
      simpl in Heq. injection Heq as <- ->.
      apply elem_of_cons in Ht0 as [->|Ht0].
      * intros Hjh. destruct (H1 h Hh) as [Hm _].
        assert (healthy_at a1 h) as Hhealthy.
        { eapply (C2 t j h); [|done|done].
          apply elem_of_app. right. by left. }
        by apply healthy_not_marked in Hhealthy.
      * by eapply (P2 pre t post).
    + intros t [->|Ht]%elem_of_cons; [done|by apply D2].
Qed.

Lemma by_position_loop_count (B : Z) (self : Virus.t)
    (uniform : nat -> float) (ks : list nat) :
  counts_down_exactly B ->
  NoDup ks ->
  forall (n : nat) (a a' : ndarray) (n' : nat) (trace : list turn),
  ByPosition.infect_loop self ks uniform n a = Ok (a', n', trace) ->
  ids_are_positions a ->
  (forall t N, t ∈ trace ->
     cell a (infector t) 12%fin = Some (Z2F N) -> (0 <= N <= B)%Z ->
     (Z.of_nat (length (hits t)) <= N)%Z
     /\ cell a' (infector t) 12%fin
        = Some (Z2F (N - Z.of_nat (length (hits t)))))
  /\ (forall t g, t ∈ trace ->
        cell a (infector t) 12%fin = Some g -> (0 <? g)%float = false ->
        hits t = []).
Proof.
  intros Hexact Hnodup. induction Hnodup as [|k ks Hk Hnodup IH];
    intros n a a' n' trace.
  - intros [= <- <- <-] _. split; by intros ? ? ?%elem_of_nil.
  - cbn [ByPosition.infect_loop].
    destruct (ByPosition.infect_turn self k uniform n a)
      as [[[a1 n1] t1]|] eqn:E1; [|done]. cbn.
    destruct (ByPosition.infect_loop self ks uniform n1 a1)
      as [[[a2 n2] ts]|] eqn:E2; [|done]. cbn.
    intros [= <- <- <-] Hids.
    pose proof E1 as (rk & r & near & _ & _ & _ & _ & _ & Hloop)
      %by_position_turn_inv.
    apply by_position_turn_effect in E1
      as (Hinf & _ & L1 & F1 & G1 & _); [|done].
    assert (ids_are_positions a1) as Hids1.
    { eapply ids_are_positions_frame; [exact L1| |exact Hids].
      intros r'. by apply F1. }
    pose proof E2 as (I2 & _ & _ & G2 & _)%by_position_loop_effect; [|done].
    apply IH in E2 as [Hcount Hzero]; [|done].
    assert (forall t, t ∈ ts -> infector t <> k) as Hother.
    { intros t Ht Heq. apply Hk. rewrite <- I2, <- Heq.
      by apply list_elem_of_fmap_2. }
    split.
    + intros t N [->|Ht]%elem_of_cons Hg HN.
      * rewrite Hinf in Hg |- *.
        destruct (by_position_candidates_count B _ _ _ Hexact _ _ _ _ _ _
                    Hloop Hg HN) as [Hlen Hg1].
        split; [done|]. by rewrite G2.
      * apply Hcount; [done| |done]. rewrite G1; [done|by apply Hother].
    + intros t g [->|Ht]%elem_of_cons Hg Hpos.
      * rewrite Hinf in Hg.
        by destruct (by_position_candidates_exhausted _ _ _ _ _ _ _ _ _
                       Hloop Hg Hpos).
      * eapply Hzero; [done| |done]. rewrite G1; [done|by apply Hother].
Qed.

(** ** The log does not change the result *)

Lemma infect_candidates_erase (idx : vec float 16) (uniform : nat -> float)
    (tmp : list float) : forall (n : nat) (persons : ndarray),
  Virus.infect_candidates idx tmp uniform n persons
  = fst <$> Traced.infect_candidates idx tmp uniform n persons.
Proof.
  induction tmp as [|i tmp IH]; intros n persons; [done|].
  cbn [Virus.infect_candidates Traced.infect_candidates].
  rewrite infect_candidate_erase.
  destruct (Traced.infect_candidate idx i (uniform n) persons)
    as [[p h]|]; [|done]. cbn.
  rewrite IH.
  by destruct (Traced.infect_candidates idx tmp uniform (S n) p)
    as [[[p' n'] hs]|].
Qed.

Lemma bounds_Ok_row (self : Virus.t) (persons : ndarray) (idx : vec float 16)
    (c : fin 16) (bs : list float) :
  Virus.bounds self persons idx c = Ok bs ->
  exists k row,
    int_of_float (idx !!! 0%fin) = Ok k
    /\ row_index (length persons) k = Ok row.
Proof.
  unfold Virus.bounds, Virus.person_at, getitem.
  destruct (int_of_float (idx !!! 0%fin)) as [k|]; [|done]. cbn.
  destruct (row_index (length persons) k) as [row|] eqn:Hrow; cbn; [|done].
  intros _. by exists k, row.
Qed.

Lemma infect_turn_erase (self : Virus.t) (idx : vec float 16)
    (uniform : nat -> float) (n : nat) (persons : ndarray) :
  Virus.infect_turn self idx uniform n persons
  = fst <$> Traced.infect_turn self idx uniform n persons.
Proof.
  unfold Virus.infect_turn, Traced.infect_turn.
  destruct (Virus.bounds self persons idx index.x_axis) as [xb|] eqn:Hx;
    [|done]. cbn.
  destruct (Virus.bounds self persons idx index.y_axis) as [yb|]; [|done]. cbn.
  destruct (Virus.find_nearby persons xb yb) as [tmp|]; [|done]. cbn.
  destruct (bounds_Ok_row _ _ _ _ _ Hx) as (k & row & -> & Hrow). cbn.
  rewrite Hrow. cbn. rewrite infect_candidates_erase.
  by destruct (Traced.infect_candidates idx tmp uniform n persons)
    as [[[p' n'] hs]|].
Qed.

Lemma infect_loop_erase (self : Virus.t) (uniform : nat -> float)
    (infected_idx : ndarray) : forall (n : nat) (persons : ndarray),
  Virus.infect_loop self infected_idx uniform n persons
  = fst <$> Traced.infect_loop self infected_idx uniform n persons.
Proof.
  induction infected_idx as [|idx rest IH]; intros n persons; [done|].
  cbn [Virus.infect_loop Traced.infect_loop].
  rewrite infect_turn_erase.
  destruct (Traced.infect_turn self idx uniform n persons)
    as [[[p n1] t]|]; [|done]. cbn.
  rewrite IH.
  by destruct (Traced.infect_loop self rest uniform n1 p)
    as [[[p' n'] ts]|].
Qed.

(** [Traced.infect] computes what [Virus.infect] computes. *)
Lemma infect_erase (self : Virus.t) (population : Population.t)
    (uniform : nat -> float) (n : nat) :
  Virus.infect self population uniform n
  = fst <$> Traced.infect self population uniform n.
Proof.
  unfold Virus.infect, Traced.infect. cbv zeta.
  rewrite infect_loop_erase.
  by destruct (Traced.infect_loop _ _ _ _ _) as [[[p' n'] ts]|].
Qed.

(** ** The code addresses rows through the id column *)

Lemma traced_candidate_by_position (idx : vec float 16) (i chance : float)
    (a : ndarray) (k m : nat) :
  int_of_float (idx !!! 0%fin) = Ok (Z.of_nat k) -> k < length a ->
  int_of_float i = Ok (Z.of_nat m) -> m < length a ->
  Traced.infect_candidate idx i chance a
  = Ok (ByPosition.infect_candidate k m chance a).
Proof.
  intros Hk Hlk Hm Hlm.
  destruct (lookup_lt_is_Some_2 a k Hlk) as [rk Hrk].
  assert (cell a k index.g_value = Some (rk !!! index.g_value)) as Hg.
  { unfold cell. by rewrite Hrk. }
  rewrite (infect_candidate_eval idx i chance a _ _ k m _ Hk
             (row_index_of_nat _ _ Hlk) Hm (row_index_of_nat _ _ Hlm) Hg).
  by rewrite (by_position_candidate_eq _ _ _ _ _ Hg).
Qed.

Lemma traced_candidates_by_position (idx : vec float 16)
    (uniform : nat -> float) (k len : nat) (tmp : list float) (ms : list nat) :
  int_of_float (idx !!! 0%fin) = Ok (Z.of_nat k) -> k < len ->
  Forall2 (fun i m => int_of_float i = Ok (Z.of_nat m) /\ m < len) tmp ms ->
  forall (n : nat) (a : ndarray), length a = len ->
  Traced.infect_candidates idx tmp uniform n a
  = Ok (ByPosition.infect_candidates k ms uniform n a).
Proof.
  intros Hk Hlk Hall.
  induction Hall as [|i m tmp ms [Hi Hm] _ IH]; intros n a Hlen; [done|].
  cbn [Traced.infect_candidates ByPosition.infect_candidates].
  rewrite (traced_candidate_by_position idx i _ a k m) by (done || lia).
  cbn.
  destruct (ByPosition.infect_candidate k m (uniform n) a) as [a1 h] eqn:E1.
  apply by_position_candidate_effect in E1 as (L1 & _).
  rewrite IH by congruence. cbn.
  by destruct (ByPosition.infect_candidates k ms uniform (S n) a1)
    as [[a2 n2] hs].
Qed.

Lemma filter_positions_Forall2 (f : vec float 16 -> bool) (l : ndarray) :
  forall off,
  (forall j r, l !! j = Some r ->
     int_of_float (r !!! 0%fin) = Ok (Z.of_nat (off + j))) ->
  Forall2 (fun (r : vec float 16) m =>
             int_of_float (r !!! 0%fin) = Ok (Z.of_nat m)
             /\ m < off + length l)
          (List.filter f l) (select (f <$> l) (seq off (length l))).
Proof.
  induction l as [|x l IH]; intros off Hids; [constructor|].
  rewrite fmap_cons. cbn [length seq select List.filter].
  assert (Forall2 (fun (r : vec float 16) m =>
                     int_of_float (r !!! 0%fin) = Ok (Z.of_nat m)
                     /\ m < off + S (length l))
            (List.filter f l) (select (f <$> l) (seq (S off) (length l))))
    as Htail.
  { eapply Forall2_impl.
    - apply IH. intros j r Hj. rewrite (Hids (S j) r Hj). do 2 f_equal. lia.
    - intros r m [? ?]. split; [done|lia]. }
  destruct (f x); [|done]. constructor; [|done].
  split; [|lia]. rewrite (Hids 0 x eq_refl). do 2 f_equal. lia.
Qed.

Lemma ids_filter_positions (f : vec float 16 -> bool) (a : ndarray) :
  ids_are_positions a ->
  Forall2 (fun (r : vec float 16) m =>
             int_of_float (r !!! 0%fin) = Ok (Z.of_nat m) /\ m < length a)
          (List.filter f a) (ByPosition.positions f a).
Proof.
  intros Hids. apply (filter_positions_Forall2 f a 0).
  intros j r Hj. by apply Hids.
Qed.

Lemma bounds_eval (self : Virus.t) (a : ndarray) (idx : vec float 16)
    (c : fin 16) (k : nat) (rk : vec float 16) :
  int_of_float (idx !!! 0%fin) = Ok (Z.of_nat k) -> a !! k = Some rk ->
  Virus.bounds self a idx c
  = r ← math_sqrt (Virus.infection_range self);
    Ok [(rk !!! c - r)%float; (rk !!! c + r)%float].
Proof.
  intros Hk Hrk. unfold Virus.bounds, Virus.person_at.
  rewrite Hk. cbn.
  assert (getitem a (Z.of_nat k) c = Ok (rk !!! c)) as ->.
  { eapply getitem_cell.
    - apply row_index_of_nat. by eapply lookup_lt_Some.
    - unfold cell. by rewrite Hrk. }
  cbn. by destruct (math_sqrt _).
Qed.

Lemma traced_turn_by_position (self : Virus.t) (idx : vec float 16)
    (uniform : nat -> float) (n : nat) (a : ndarray) (k : nat) :
  ids_are_positions a ->
  int_of_float (idx !!! 0%fin) = Ok (Z.of_nat k) -> k < length a ->
  Traced.infect_turn self idx uniform n a
  = ByPosition.infect_turn self k uniform n a.
Proof.
  intros Hids Hk Hlk.
  destruct (lookup_lt_is_Some_2 a k Hlk) as [rk Hrk].
  unfold Traced.infect_turn, ByPosition.infect_turn.
  rewrite !(bounds_eval self a idx _ k rk Hk Hrk), Hrk.
  destruct (math_sqrt _) as [r|]; [|done]. cbn.
  rewrite find_nearby_filter. cbn. rewrite Hk. cbn.
  rewrite (row_index_of_nat _ _ Hlk). cbn.
  unfold index.x_axis, index.y_axis.
  set (near := nearby_healthy _ _ _ _).
  rewrite (traced_candidates_by_position idx uniform k (length a) _
             (ByPosition.positions near a)); [|done|done| |done].
  - cbn. by destruct (ByPosition.infect_candidates _ _ _ _ _) as [[a1 n1] hs].
  - apply Forall2_fmap_l. by apply ids_filter_positions.
Qed.

Lemma traced_loop_by_position (self : Virus.t) (uniform : nat -> float)
    (len : nat) (infected_idx : ndarray) (ks : list nat) :
  Forall2 (fun (idx : vec float 16) k =>
             int_of_float (idx !!! 0%fin) = Ok (Z.of_nat k) /\ k < len)
          infected_idx ks ->
  forall (n : nat) (a : ndarray),
  length a = len -> ids_are_positions a ->
  Traced.infect_loop self infected_idx uniform n a
  = ByPosition.infect_loop self ks uniform n a.
Proof.
  induction 1 as [|idx k rest ks [Hk Hlk] _ IH]; intros n a Hlen Hids; [done|].
  cbn [Traced.infect_loop ByPosition.infect_loop].
  rewrite (traced_turn_by_position self idx uniform n a k) by (done || lia).
  destruct (ByPosition.infect_turn self k uniform n a)
    as [[[a1 n1] t1]|] eqn:E1; [|done]. cbn.
  apply by_position_turn_effect in E1 as (_ & _ & L1 & F1 & _); [|done].
  rewrite IH; [done|congruence|].
  eapply ids_are_positions_frame; [exact L1| |exact Hids].
  intros r. by apply F1.
Qed.

Lemma get_all_infected_filter (population : Population.t) :
  Population.get_all_infected population
  = List.filter (fun r : vec float 16 => (r !!! 9%fin =? 1)%float)
      (Population.persons population).
Proof.
  unfold Population.get_all_infected, column.
  rewrite <- list_fmap_compose.
  rewrite <- (list_fmap_id (Population.persons population)) at 2.
  rewrite select_fmap_filter. by rewrite list_fmap_id.
Qed.

(** Under ids = positions the code, with its log, is the step by
    position. *)
Lemma traced_infect_by_position (self : Virus.t) (population : Population.t)
    (uniform : nat -> float) (n : nat) :
  ids_are_positions (Population.persons population) ->
  Traced.infect self population uniform n
  = ByPosition.infect self population uniform n.
Proof.
  intros Hids. unfold Traced.infect, ByPosition.infect. cbv zeta.
  rewrite get_all_infected_filter. unfold Population.get_person.
  by rewrite (traced_loop_by_position self uniform
                (length (Population.persons population)) _ _
                (ids_filter_positions _ _ Hids)).
Qed.

(** ** The infection step, candidate by candidate *)

Lemma stepwise_candidates_erase (idx : vec float 16) (uniform : nat -> float)
    (tmp : list float) : forall (n : nat) (persons : ndarray),
  Virus.infect_candidates idx tmp uniform n persons
  = fst <$> Stepwise.infect_candidates idx tmp uniform n persons.
Proof.
  induction tmp as [|i tmp IH]; intros n persons; [done|].
  cbn [Virus.infect_candidates Stepwise.infect_candidates].
  destruct (Virus.infect_candidate idx i (uniform n) persons) as [p|]; [|done].
  cbn. rewrite IH.
  by destruct (Stepwise.infect_candidates idx tmp uniform (S n) p)
    as [[[p' n'] ss]|].
Qed.

Lemma stepwise_turn_erase (self : Virus.t) (idx : vec float 16)
    (uniform : nat -> float) (n : nat) (persons : ndarray) :
  Virus.infect_turn self idx uniform n persons
  = fst <$> Stepwise.infect_turn self idx uniform n persons.
Proof.
  unfold Virus.infect_turn, Stepwise.infect_turn.
  destruct (Virus.bounds self persons idx index.x_axis) as [xb|]; [|done]. cbn.
  destruct (Virus.bounds self persons idx index.y_axis) as [yb|]; [|done]. cbn.
  destruct (Virus.find_nearby persons xb yb) as [tmp|]; [|done]. cbn.
  rewrite stepwise_candidates_erase.
  by destruct (Stepwise.infect_candidates idx tmp uniform n persons)
    as [[[p' n'] ss]|].
Qed.

Lemma stepwise_loop_erase (self : Virus.t) (uniform : nat -> float)
    (infected_idx : ndarray) : forall (n : nat) (persons : ndarray),
  Virus.infect_loop self infected_idx uniform n persons
  = fst <$> Stepwise.infect_loop self infected_idx uniform n persons.
Proof.
  induction infected_idx as [|idx rest IH]; intros n persons; [done|].
  cbn [Virus.infect_loop Stepwise.infect_loop].
  rewrite stepwise_turn_erase.
  destruct (Stepwise.infect_turn self idx uniform n persons)
    as [[[p n1] t]|]; [|done]. cbn.
  rewrite IH.
  by destruct (Stepwise.infect_loop self rest uniform n1 p)
    as [[[p' n'] ts]|].
Qed.

(** [Stepwise.infect] computes what [Virus.infect] computes. *)
Lemma stepwise_infect_erase (self : Virus.t) (population : Population.t)
    (uniform : nat -> float) (n : nat) :
  Virus.infect self population uniform n
  = fst <$> Stepwise.infect self population uniform n.
Proof.
  unfold Virus.infect, Stepwise.infect. cbv zeta.
  rewrite stepwise_loop_erase.
  by destruct (Stepwise.infect_loop _ _ _ _ _) as [[[p' n'] ts]|].
Qed.

Lemma row_of_position (a : ndarray) (x : float) (k : nat) :
  int_of_float x = Ok (Z.of_nat k) -> k < length a -> row_of a x = Ok k.
Proof.
  intros Hx Hk. unfold row_of. rewrite Hx. cbn. by apply row_index_of_nat.
Qed.

Lemma filter_positions_rows (f : vec float 16 -> bool) (l : ndarray) :
  forall off,
  Forall2 (fun (r : vec float 16) m =>
             exists j, m = off + j /\ l !! j = Some r /\ f r = true)
          (List.filter f l) (select (f <$> l) (seq off (length l))).
Proof.
  induction l as [|x l IH]; intros off; [constructor|].
  rewrite fmap_cons. cbn [length seq select List.filter].
  assert (Forall2 (fun (r : vec float 16) m =>
                     exists j, m = off + j /\ (x :: l) !! j = Some r
                               /\ f r = true)
            (List.filter f l) (select (f <$> l) (seq (S off) (length l))))
    as Htail.
  { eapply Forall2_impl; [apply (IH (S off))|].
    intros r m (j & -> & Hj & Hr). exists (S j). split_and!; [lia|done|done]. }
  destruct (f x) eqn:Hx; [|done]. constructor; [|done].
  exists 0. split_and!; [lia|done|done].
Qed.

Lemma filter_positions_lookup (f : vec float 16 -> bool) (a : ndarray) :
  Forall2 (fun (r : vec float 16) m => a !! m = Some r /\ f r = true)
          (List.filter f a) (ByPosition.positions f a).
Proof.
  eapply Forall2_impl; [apply (filter_positions_rows f a 0)|].
  intros r m (j & -> & Hj & Hr). done.
Qed.

(** The inner loop, for candidates that are distinct healthy rows. *)
Lemma stepwise_candidates_steps (idx : vec float 16) (k : nat)
    (uniform : nat -> float) (tmp : list float) :
  int_of_float (idx !!! 0%fin) = Ok (Z.of_nat k) ->
  forall (ms : list nat) (n : nat) (a : ndarray),
  NoDup ms ->
  cell a k 0%fin = Some (idx !!! 0%fin) ->
  Forall2 (fun i m => int_of_float i = Ok (Z.of_nat m)
                      /\ cell a m 0%fin = Some i
                      /\ healthy_at a m) tmp ms ->
  exists a' ss,
    Stepwise.infect_candidates idx tmp uniform n a
    = Ok (a', n + length tmp, ss)
    /\ steps_chain a ss a'
    /\ target <$> ss = tmp
    /\ draw <$> ss = uniform <$> seq n (length tmp)
    /\ Forall (step_ok idx) ss
    /\ length a' = length a
    /\ (forall r c, c <> 9%fin -> c <> 12%fin -> cell a' r c = cell a r c).
Proof.
  intros Hk. induction tmp as [|i tmp IH]; intros ms n a Hnd Hidk Hall.
  - exists a, []. cbn. rewrite Nat.add_0_r.
    split_and!; done || constructor.
  - apply Forall2_cons_inv_l in Hall as (m & ms' & (Hi & Hid & Hh) & Hall & ->).
    apply NoDup_cons in Hnd as [Hm Hnd].
    pose proof (cell_lt _ _ _ _ Hidk) as Hlk.
    pose proof (cell_lt _ _ _ _ Hid) as Hlm.
    destruct (lookup_lt_is_Some_2 a k Hlk) as [rk Hrk].
    assert (cell a k 12%fin = Some (rk !!! 12%fin)) as Hg.
    { unfold cell. by rewrite Hrk. }
    pose proof Hh as (s & Hs & Hs0).
    destruct (infect_candidate_body idx i (uniform n) a _ _ k m _ s Hk
                (row_index_of_nat _ _ Hlk) Hi (row_index_of_nat _ _ Hlm)
                Hg Hs Hs0) as (a1 & Hbody & Hiff & L1 & F1 & U1).
    destruct (IH ms' (S n) a1) as (a' & ss & Hrun & Hchain & Htgt & Hdraw
                                   & Hok & L & F).
    + done.
    + rewrite F1; [done| |]; by intros [= ].
    + apply Forall2_same_length_lookup_2; [by eapply Forall2_length|].
      intros p i' m' Hi' Hm'.
      destruct (Forall2_lookup_lr _ _ _ _ _ _ Hall Hi' Hm')
        as (Hint & Hid' & (s' & Hs' & Hs0')).
      assert (m' <> m) as Hne.
      { intros ->. apply Hm. by eapply list_elem_of_lookup_2. }
      split_and!; [done| |].
      * rewrite F1; [done| |]; by intros [= ].
      * exists s'. split; [|done]. unfold index.current_state in *.
        rewrite F1; [done| |]; intros [= ]; done.
    + exists a', (mk_step i (uniform n) a a1 :: ss).
      replace (n + length (i :: tmp)) with (S n + length tmp)
        by (simpl; lia).
      split_and!.
      * cbn [Stepwise.infect_candidates]. rewrite Hbody. cbn.
        by rewrite Hrun.
      * done.
      * cbn. by rewrite Htgt.
      * cbn. by rewrite Hdraw.
      * constructor; [|done]. exists k, m, (rk !!! 12%fin).
        cbn [before after target draw].
        unfold index.id, index.current_state, index.g_value.
        split_and!; try done.
        -- by apply row_of_position.
        -- by apply row_of_position.
      * congruence.
      * intros r c H9 H12. rewrite F by done.
        apply F1; intros [= ]; done.
Qed.

(** One turn, for an infector whose id is the position of its row. *)
Lemma stepwise_turn_steps (self : Virus.t) (idx : vec float 16) (k : nat)
    (uniform : nat -> float) (n : nat) (a : ndarray) :
  (Virus.infection_range self <? 0)%float = false ->
  ids_are_positions a ->
  int_of_float (idx !!! 0%fin) = Ok (Z.of_nat k) ->
  cell a k 0%fin = Some (idx !!! 0%fin) ->
  exists a' t,
    Stepwise.infect_turn self idx uniform n a
    = Ok (a', n + length (steps t), t)
    /\ acting t = idx
    /\ at_start t = a
    /\ steps_chain a (steps t) a'
    /\ draw <$> steps t = uniform <$> seq n (length (steps t))
    /\ turn_ok self t
    /\ length a' = length a
    /\ (forall r c, c <> 9%fin -> c <> 12%fin -> cell a' r c = cell a r c).
Proof.
  intros Hrange Hids Hk Hidk.
  pose proof (cell_lt _ _ _ _ Hidk) as Hlk.
  destruct (lookup_lt_is_Some_2 a k Hlk) as [rk Hrk].
  pose proof (bounds_eval self a idx index.x_axis k rk Hk Hrk) as Hxb.
  pose proof (bounds_eval self a idx index.y_axis k rk Hk Hrk) as Hyb.
  unfold math_sqrt in Hxb, Hyb. rewrite Hrange in Hxb, Hyb.
  cbn in Hxb, Hyb.
  set (r := PrimFloat.sqrt (Virus.infection_range self)) in *.
  set (near := nearby_healthy (rk !!! index.x_axis - r) (rk !!! index.x_axis + r)
                 (rk !!! index.y_axis - r) (rk !!! index.y_axis + r)).
  pose proof (find_nearby_filter a (rk !!! index.x_axis - r)
                (rk !!! index.x_axis + r) (rk !!! index.y_axis - r)
                (rk !!! index.y_axis + r) [] []) as Hfind.
  fold near in Hfind.
  destruct (stepwise_candidates_steps idx k uniform
              ((fun r : vec float 16 => r !!! index.id) <$> List.filter near a)
              Hk (ByPosition.positions near a) n a)
    as (a' & ss & Hrun & Hchain & Htgt & Hdraw & Hok & L & F).
  - apply positions_NoDup.
  - done.
  - apply Forall2_fmap_l.
    eapply Forall2_impl; [apply filter_positions_lookup|].
    intros row m [Hrow Hnear]. cbn. split_and!.
    + by apply Hids.
    + unfold cell. by rewrite Hrow.
    + exists (row !!! index.current_state). split.
      * unfold cell. by rewrite Hrow.
      * by eapply nearby_healthy_state.
  - assert (length ss = length (List.filter near a)) as Hlen.
    { rewrite <- (length_fmap target), Htgt. by rewrite length_fmap. }
    rewrite length_fmap, <- Hlen in Hrun, Hdraw.
    exists a', (mk_turn_steps idx a
                  ((fun r : vec float 16 => r !!! index.id)
                     <$> List.filter near a) ss).
    cbn [steps acting at_start]. split_and!; try done.
    + unfold Stepwise.infect_turn. rewrite Hxb, Hyb. cbn. fold r.
      rewrite Hfind. cbn. by rewrite Hrun.
    + eexists. eexists. cbn [steps acting at_start nearby].
      split_and!; done.
Qed.

(** The outer loop, over copies of rows whose ids are their positions. *)
Lemma stepwise_loop_steps (self : Virus.t) (uniform : nat -> float)
    (infected_idx : ndarray) :
  (Virus.infection_range self <? 0)%float = false ->
  forall (ks : list nat) (n : nat) (a : ndarray),
  ids_are_positions a ->
  Forall2 (fun (idx : vec float 16) k =>
             int_of_float (idx !!! 0%fin) = Ok (Z.of_nat k)
             /\ cell a k 0%fin = Some (idx !!! 0%fin)) infected_idx ks ->
  exists a' log,
    Stepwise.infect_loop self infected_idx uniform n a
    = Ok (a', n + length (concat (steps <$> log)), log)
    /\ acting <$> log = infected_idx
    /\ turns_chain a log a'
    /\ draw <$> concat (steps <$> log)
       = uniform <$> seq n (length (concat (steps <$> log)))
    /\ Forall (turn_ok self) log.
Proof.
  intros Hrange.
  induction infected_idx as [|idx rest IH]; intros ks n a Hids Hall.
  - exists a, []. cbn. rewrite Nat.add_0_r. split_and!; done || constructor.
  - apply Forall2_cons_inv_l in Hall as (k & ks' & [Hk Hidk] & Hall & ->).
    destruct (stepwise_turn_steps self idx k uniform n a Hrange Hids Hk Hidk)
      as (a1 & t & Hturn & Hact & Hstart & Hchain & Hdraw & Hok & L1 & F1).
    destruct (IH ks' (n + length (steps t)) a1)
      as (a' & log & Hloop & Hacts & Hchains & Hdraws & Hoks).
    + eapply ids_are_positions_frame; [exact L1| |exact Hids].
      intros r. by apply F1.
    + eapply Forall2_impl; [exact Hall|].
      intros idx' k' [? ?]. split; [done|]. by rewrite F1.
    + exists a', (t :: log). rewrite fmap_cons. cbn [concat].
      rewrite length_app, fmap_app, seq_app, fmap_app, Nat.add_assoc.
      split_and!.
      * cbn [Stepwise.infect_loop]. rewrite Hturn. cbn. by rewrite Hloop.
      * cbn. by rewrite Hact, Hacts.
      * cbn [turns_chain]. split; [done|]. by exists a1.
      * by rewrite Hdraw, Hdraws.
      * by constructor.
Qed.

(** C1: in a population whose ids are the row positions, and with an
    infection range that is not negative, a call of [infect] returns; its
    turns are those of the rows infected when it began, in order; the
    candidates of a turn are what [find_nearby] returns for the infector,
    each with the next value of the random source; and for every
    candidate the table changes as [step_ok] says: the candidate is
    marked and the infector's g_value decremented by 1 exactly when the
    draw is below 0.06 and the g_value at that moment is above 0, and
    nothing changes when either test fails. *)
Theorem infect_candidate_iff (self : Virus.t) (population : Population.t)
    (uniform : nat -> float) (n : nat) :
  ids_are_positions (Population.persons population) ->
  (Virus.infection_range self <? 0)%float = false ->
  exists pop' log,
    Virus.infect self population uniform n
    = Ok (pop', n + length (concat (steps <$> log)))
    /\ Stepwise.infect self population uniform n
       = Ok (pop', n + length (concat (steps <$> log)), log)
    /\ acting <$> log = Population.get_all_infected population
    /\ turns_chain (Population.persons population) log
         (Population.persons pop')
    /\ draw <$> concat (steps <$> log)
       = uniform <$> seq n (length (concat (steps <$> log)))
    /\ Forall (turn_ok self) log.
Proof.
  intros Hids Hrange.
  destruct (stepwise_loop_steps self uniform
              (Population.get_all_infected population) Hrange
              (ByPosition.positions (fun r => (r !!! 9%fin =? 1)%float)
                 (Population.persons population))
              n (Population.persons population) Hids)
    as (a' & log & Hloop & Hacts & Hchain & Hdraws & Hoks).
  { rewrite get_all_infected_filter.
    eapply Forall2_impl; [apply filter_positions_lookup|].
    intros row m [Hrow _]. cbn. split; [by apply Hids|].
    unfold cell. by rewrite Hrow. }
  assert (Stepwise.infect self population uniform n
          = Ok (Population.mk a', n + length (concat (steps <$> log)), log))
    as Hrun.
  { unfold Stepwise.infect, Population.get_person. cbv zeta.
    by rewrite Hloop. }
  exists (Population.mk a'), log. split_and!; try done.
  by rewrite stepwise_infect_erase, Hrun.
Qed.

(** C1, the claim as written fails for a population whose ids are not
    row positions.  In [stray_town] the proximity query returns the id 5
    for the infector, the draw is below 0.06 and the infector's g_value
    is 1, but no row is marked and no g_value decremented: the call
    raises [IndexError]. *)
Lemma infect_candidate_without_row :
  Population.get_all_infected stray_town = [ person 0 0 0 1 1 ]
  /\ Virus.bounds sample_virus (Population.persons stray_town)
       (person 0 0 0 1 1) index.x_axis = Ok [(-2)%float; 2%float]
  /\ Virus.bounds sample_virus (Population.persons stray_town)
       (person 0 0 0 1 1) index.y_axis = Ok [(-2)%float; 2%float]
  /\ Virus.find_nearby (Population.persons stray_town)
       [(-2)%float; 2%float] [(-2)%float; 2%float] = Ok [5%float]
  /\ (always 0.01%float 0 <? 0.06)%float = true
  /\ Virus.person_at (Population.persons stray_town) (person 0 0 0 1 1)
       index.g_value = Ok 1%float
  /\ (0 <? 1)%float = true
  /\ Virus.infect sample_virus stray_town (always 0.01%float) 0
     = Raise IndexError.
Proof. split_and!; reflexivity. Qed.

(** ** Exact countdown of small integers in binary64 *)

Lemma counts_down_check_sound (B : Z) :
  counts_down_check B = true -> counts_down_exactly B.
Proof.
  unfold counts_down_check, counts_down_exactly.
  rewrite forallb_forall. intros Hall n Hn.
  assert (In n (seqZ 1 B)) as Hin.
  { apply list_elem_of_In, elem_of_seqZ. lia. }
  apply Hall, andb_true_iff in Hin as [Hpos Heq].
  split; [done|]. by apply FloatAxioms.Leibniz.eqb_spec.
Qed.

Lemma counts_down_exactly_1024 : counts_down_exactly 1024.
Proof. apply counts_down_check_sound. vm_compute. reflexivity. Qed.

(** ** The infection step *)

Lemma infectors_not_healthy (a : ndarray) (h : nat) :
  healthy_at a h ->
  h ∉ ByPosition.positions (fun r => (r !!! index.current_state =? 1)%float) a.
Proof.
  intros (s & Hs & Hs0) (r & Hr & H1)%elem_of_positions.
  unfold cell in Hs. rewrite Hr in Hs. injection Hs as <-.
  apply infected_not_healthy in H1. congruence.
Qed.

Lemma by_position_infect_inv (self : Virus.t) (population pop' : Population.t)
    (uniform : nat -> float) (n n' : nat) (trace : list turn) :
  ByPosition.infect self population uniform n = Ok (pop', n', trace) ->
  ByPosition.infect_loop self
    (ByPosition.positions (fun r => (r !!! index.current_state =? 1)%float)
       (Population.persons population))
    uniform n (Population.persons population)
  = Ok (Population.persons pop', n', trace).
Proof.
  unfold ByPosition.infect. cbv zeta.
  destruct (ByPosition.infect_loop _ _ _ _ _) as [[[a1 n1] ts]|]; [|done].
  by intros [= <- <- <-].
Qed.

(** C6: [infect] finds every row it reads or writes through the value of
    the id column.  When each id equals its row position, the call is the
    step by position: the box is the one around the infector's own
    coordinates, the mark goes to the candidate's own row and the
    decrement to the infector's own row. *)
Theorem infect_addresses_rows_by_id (self : Virus.t)
    (population : Population.t) (uniform : nat -> float) (n : nat) :
  ids_are_positions (Population.persons population) ->
  Virus.infect self population uniform n
  = fst <$> ByPosition.infect self population uniform n.
Proof.
  intros Hids. rewrite infect_erase.
  by rewrite traced_infect_by_position.
Qed.

(** C7: within one call the infectors are the rows infected when the
    call began, in table order; a row marked during the call was healthy
    at its start, is none of the infectors, ends the call infected, and is
    addressed by no candidate of any later infector. *)
Theorem infectors_are_the_snapshot (self : Virus.t)
    (population pop' : Population.t) (uniform : nat -> float) (n n' : nat)
    (trace : list turn) :
  ids_are_positions (Population.persons population) ->
  Traced.infect self population uniform n = Ok (pop', n', trace) ->
  Virus.infect self population uniform n = Ok (pop', n')
  /\ infector <$> trace
     = ByPosition.positions (fun r => (r !!! 9%fin =? 1)%float)
         (Population.persons population)
  /\ (forall t h, t ∈ trace -> h ∈ hits t ->
        healthy_at (Population.persons population) h
        /\ (h ∉ (infector <$> trace))
        /\ cell (Population.persons pop') h 9%fin = Some 1%float)
  /\ (forall pre t post, trace = pre ++ t :: post ->
        forall t0 h j, t0 ∈ pre -> h ∈ hits t0 -> j ∈ candidates t ->
          int_of_float j <> Ok (Z.of_nat h)).
Proof.
  intros Hids Hrun. split; [by rewrite infect_erase, Hrun|].
  rewrite traced_infect_by_position in Hrun by done.
  apply by_position_infect_inv, by_position_loop_effect in Hrun
    as (I & _ & _ & _ & _ & H & _ & P & _); [|done].
  split_and!; [done| |done].
  intros t h Ht Hh. destruct (H t h Ht Hh) as [Hm Hhealthy].
  split_and!; [done| |done].
  rewrite I. by apply infectors_not_healthy.
Qed.

(** C5: an infector whose g_value is 0 when the call begins marks
    nobody; an infector whose g_value is the integer N marks at most N
    distinct rows, in its single turn; and every g_value is still a
    non-negative integer when the call returns. *)
Theorem infect_respects_g_value (B : Z) (self : Virus.t)
    (population pop' : Population.t) (uniform : nat -> float) (n n' : nat)
    (trace : list turn) :
  counts_down_exactly B ->
  ids_are_positions (Population.persons population) ->
  (forall k g, cell (Population.persons population) k 12%fin = Some g ->
     exists N, (0 <= N <= B)%Z /\ g = Z2F N) ->
  Traced.infect self population uniform n = Ok (pop', n', trace) ->
  Virus.infect self population uniform n = Ok (pop', n')
  /\ NoDup (infector <$> trace)
  /\ (forall t g, t ∈ trace ->
        cell (Population.persons population) (infector t) 12%fin = Some g ->
        (g =? 0)%float = true -> hits t = [])
  /\ (forall t N, t ∈ trace ->
        cell (Population.persons population) (infector t) 12%fin
        = Some (Z2F N) ->
        (0 <= N <= B)%Z ->
        NoDup (hits t) /\ (Z.of_nat (length (hits t)) <= N)%Z)
  /\ (forall k g', cell (Population.persons pop') k 12%fin = Some g' ->
        exists N', (0 <= N' <= B)%Z /\ g' = Z2F N').
Proof.
  intros Hexact Hids Hint Hrun. split; [by rewrite infect_erase, Hrun|].
  rewrite traced_infect_by_position in Hrun by done.
  apply by_position_infect_inv in Hrun.
  set (a := Population.persons population) in *.
  set (ks := ByPosition.positions _ a) in *.
  assert (NoDup ks) as Hnodup by apply positions_NoDup.
  pose proof Hrun as (I & L & _ & G & _ & _ & _ & _ & D)
    %by_position_loop_effect; [|done].
  apply (by_position_loop_count B) in Hrun as [Hcount Hzero];
    [|done|done|done].
  split_and!.
  - by rewrite I.
  - intros t g Ht Hg Hg0. eapply Hzero; [done|done|].
    by apply zero_not_positive.
  - intros t N Ht Hg HN. split; [by apply D|].
    by apply (Hcount t N Ht Hg HN).
  - intros k g' Hg'.
    destruct (decide (k ∈ ks)) as [Hk|Hk].
    + rewrite <- I in Hk. apply list_elem_of_fmap in Hk as (t & -> & Ht).
      assert (infector t < length a) as Hlt.
      { rewrite <- L. by eapply cell_lt. }
      destruct (lookup_lt_is_Some_2 a _ Hlt) as [r Hr].
      assert (cell a (infector t) 12%fin = Some (r !!! 12%fin)) as Hg.
      { unfold cell. by rewrite Hr. }
      destruct (Hint _ _ Hg) as (N & HN & HgN). rewrite HgN in Hg.
      destruct (Hcount t N Ht Hg HN) as [Hlen Hfinal].
      rewrite Hfinal in Hg'. injection Hg' as <-.
      eexists. split; [|done]. lia.
    + rewrite G in Hg' by done. by apply (Hint k).
Qed.

(** Under ids = positions and a non-negative [infection_range] the call
    returns. *)
Lemma by_position_loop_returns (self : Virus.t) (uniform : nat -> float)
    (ks : list nat) :
  (Virus.infection_range self <? 0)%float = false ->
  forall (n : nat) (a : ndarray),
  Forall (fun k => k < length a) ks ->
  is_Ok (ByPosition.infect_loop self ks uniform n a).
Proof.
  intros Hrange. induction ks as [|k ks IH]; intros n a Hks.
  - by eexists.
  - apply Forall_cons in Hks as [Hk Hks].
    cbn [ByPosition.infect_loop].
    destruct (ByPosition.infect_turn self k uniform n a)
      as [[[a1 n1] t1]|] eqn:E1.
    + cbn. pose proof E1 as (rk & r & near & _ & _ & _ & _ & _ & Hloop)
        %by_position_turn_inv.
      apply by_position_candidates_effect in Hloop as (L1 & _).
      destruct (IH n1 a1) as [[[a2 n2] ts] ->]; [by rewrite L1|].
      by eexists.
    + exfalso. unfold ByPosition.infect_turn, math_sqrt in E1.
      destruct (lookup_lt_is_Some_2 a k Hk) as [rk Hrk].
      rewrite Hrk, Hrange in E1. cbn in E1.
      by destruct (ByPosition.infect_candidates _ _ _ _ _) as [[? ?] ?].
Qed.

Lemma infect_returns (self : Virus.t) (population : Population.t)
    (uniform : nat -> float) (n : nat) :
  ids_are_positions (Population.persons population) ->
  (Virus.infection_range self <? 0)%float = false ->
  is_Ok (Virus.infect self population uniform n).
Proof.
  intros Hids Hrange. rewrite infect_erase, traced_infect_by_position by done.
  unfold ByPosition.infect. cbv zeta.
  destruct (by_position_loop_returns self uniform
              (ByPosition.positions
                 (fun r => (r !!! index.current_state =? 1)%float)
                 (Population.persons population))
              Hrange n (Population.persons population))
    as [[[a1 n1] ts] ->].
  - apply Forall_forall. intros k (r & Hr & _)%elem_of_positions.
    by eapply lookup_lt_Some.
  - by eexists.
Qed.

(** *** The sample run *)

Lemma sample_town_ids : ids_are_positions (Population.persons sample_town).
Proof.
  intros k r Hk. destruct k as [|[|[|k]]]; simplify_eq/=; reflexivity.
Qed.

Lemma sample_town_g_values (k : nat) (g : float) :
  cell (Population.persons sample_town) k 12%fin = Some g ->
  exists N, (0 <= N <= 1024)%Z /\ g = Z2F N.
Proof.
  intros Hg. destruct k as [|[|[|k]]]; vm_compute in Hg; simplify_eq.
  - exists 1%Z. split; [lia|reflexivity].
  - exists 0%Z. split; [lia|reflexivity].
  - exists 0%Z. split; [lia|reflexivity].
Qed.

Lemma sample_run :
  Traced.infect sample_virus sample_town (always 0.01%float) 0
  = Ok (Population.mk [ person 0 0 0 1 0; person 1 1 1 1 0;
                        person 2 0.5 (-1) 0 0 ],
        2, [ mk_turn 0 [1%float; 2%float] [1] ]).
Proof. reflexivity. Qed.

(** The sample run step by step: the first candidate is marked and takes
    the infector's only g_value, the second is drawn for and left alone. *)
Lemma sample_steps :
  Stepwise.infect sample_virus sample_town (always 0.01%float) 0
  = Ok (Population.mk [ person 0 0 0 1 0; person 1 1 1 1 0;
                        person 2 0.5 (-1) 0 0 ],
        2,
        [ mk_turn_steps (person 0 0 0 1 1)
            [ person 0 0 0 1 1; person 1 1 1 0 0; person 2 0.5 (-1) 0 0 ]
            [1%float; 2%float]
            [ mk_step 1 0.01
                [ person 0 0 0 1 1; person 1 1 1 0 0; person 2 0.5 (-1) 0 0 ]
                [ person 0 0 0 1 0; person 1 1 1 1 0; person 2 0.5 (-1) 0 0 ];
              mk_step 2 0.01
                [ person 0 0 0 1 0; person 1 1 1 1 0; person 2 0.5 (-1) 0 0 ]
                [ person 0 0 0 1 0; person 1 1 1 1 0; person 2 0.5 (-1) 0 0 ]
            ] ]).
Proof. reflexivity. Qed.

Lemma infect_candidate_iff_witness :
  Forall (turn_ok sample_virus)
    [ mk_turn_steps (person 0 0 0 1 1)
        [ person 0 0 0 1 1; person 1 1 1 0 0; person 2 0.5 (-1) 0 0 ]
        [1%float; 2%float]
        [ mk_step 1 0.01
            [ person 0 0 0 1 1; person 1 1 1 0 0; person 2 0.5 (-1) 0 0 ]
            [ person 0 0 0 1 0; person 1 1 1 1 0; person 2 0.5 (-1) 0 0 ];
          mk_step 2 0.01
            [ person 0 0 0 1 0; person 1 1 1 1 0; person 2 0.5 (-1) 0 0 ]
            [ person 0 0 0 1 0; person 1 1 1 1 0; person 2 0.5 (-1) 0 0 ]
        ] ].
Proof.
  destruct (infect_candidate_iff sample_virus sample_town (always 0.01%float) 0
              sample_town_ids eq_refl)
    as (pop' & log & _ & Hsteps & _ & _ & _ & Hok).
  rewrite sample_steps in Hsteps. injection Hsteps as _ _ <-. exact Hok.
Defined.

Lemma infect_addresses_rows_by_id_witness :
  Virus.infect sample_virus sample_town (always 0.01%float) 0
  = fst <$> ByPosition.infect sample_virus sample_town (always 0.01%float) 0.
Proof.
  apply (infect_addresses_rows_by_id sample_virus sample_town
           (always 0.01%float) 0).
  apply sample_town_ids.
Defined.

Lemma pair_town_ids : ids_are_positions (Population.persons pair_town).
Proof.
  intros k r Hk. destruct k as [|[|[|[|k]]]]; simplify_eq/=; reflexivity.
Qed.

(** Two infectors: the first marks row 2 and has no g_value left for row
    3, the second is offered row 3 only. *)
Lemma pair_run :
  Traced.infect sample_virus pair_town (always 0.01%float) 0
  = Ok (Population.mk [ person 0 0 0 1 0; person 1 1 0 1 0;
                        person 2 0.5 0.5 1 0; person 3 0.5 (-0.5) 1 0 ],
        3, [ mk_turn 0 [2%float; 3%float] [2]; mk_turn 1 [3%float] [3] ]).
Proof. reflexivity. Qed.

Lemma infectors_are_the_snapshot_witness :
  infector <$> [ mk_turn 0 [2%float; 3%float] [2]; mk_turn 1 [3%float] [3] ]
  = ByPosition.positions (fun r => (r !!! 9%fin =? 1)%float)
      (Population.persons pair_town)
  /\ (2 ∉ (infector <$> [ mk_turn 0 [2%float; 3%float] [2];
                          mk_turn 1 [3%float] [3] ]))
  /\ int_of_float 3%float <> Ok (Z.of_nat 2).
Proof.
  destruct (infectors_are_the_snapshot sample_virus pair_town _
              (always 0.01%float) 0 _ _ pair_town_ids pair_run)
    as (_ & I & H & P).
  split_and!.
  - exact I.
  - apply (H (mk_turn 0 [2%float; 3%float] [2]) 2).
    + apply list_elem_of_here.
    + apply list_elem_of_here.
  - apply (P [mk_turn 0 [2%float; 3%float] [2]] (mk_turn 1 [3%float] [3]) []
             eq_refl (mk_turn 0 [2%float; 3%float] [2]) 2 3%float).
    + apply list_elem_of_here.
    + apply list_elem_of_here.
    + apply list_elem_of_here.
Defined.

(** C7, the claim as written fails when two rows carry the same id: the
    healthy filter reads the live table, but the mark goes to the row the
    id addresses.  In [twin_town] the first infector is offered the id 3
    of row 2 and marks row 3; row 2 is still healthy, so the second
    infector is offered the id 3 again and row 3, already infected, is
    its target again. *)
Lemma infect_targets_marked_row_again :
  Traced.infect sample_virus twin_town (always 0.01%float) 0
  = Ok (Population.mk [ person 0 0 0 1 0; person 1 1 0 1 0;
                        person 3 0.5 0.5 0 0; person 3 50 50 1 0 ],
        2, [ mk_turn 0 [3%float] [3]; mk_turn 1 [3%float] [3] ])
  /\ Virus.infect sample_virus twin_town (always 0.01%float) 0
     = Ok (Population.mk [ person 0 0 0 1 0; person 1 1 0 1 0;
                           person 3 0.5 0.5 0 0; person 3 50 50 1 0 ], 2)
  /\ int_of_float 3%float = Ok (Z.of_nat 3).
Proof. split_and!; reflexivity. Qed.

Lemma infect_respects_g_value_witness :
  NoDup [1] /\ (Z.of_nat (length [1]) <= 1)%Z.
Proof.
  apply (infect_respects_g_value 1024 sample_virus sample_town _
           (always 0.01%float) 0 _ _ counts_down_exactly_1024 sample_town_ids
           sample_town_g_values sample_run)
    with (t := mk_turn 0 [1%float; 2%float] [1]) (N := 1%Z).
  - by left.
  - reflexivity.
  - lia.
Defined.

(** C5, the claim as written fails outside these preconditions.  A
    g_value of one half is above 0, so the infector marks its neighbour
    and is left with a g_value below 0.  With ids counted from 1 the
    g_value tested is the one of the row after the infector's: the only
    infected individual has g_value 0, and the call marks two rows and
    takes the two decrements from a healthy individual. *)
Lemma infect_g_value_not_respected :
  (Virus.infect sample_virus half_town (always 0.01%float) 0
   = Ok (Population.mk [ person 0 0 0 1 (-0.5); person 1 1 1 1 0 ], 1)
   /\ (-0.5 <? 0)%float = true)
  /\ (Population.get_all_infected shifted_town = [ person 1 0 0 1 0 ]
      /\ Virus.infect sample_virus shifted_town (always 0.01%float) 0
         = Ok (Population.mk [ person 1 0 0 1 0; person 2 100 100 0 1;
                               person 3 100.5 100 1 0; person 4 500 500 1 0 ],
               2)).
Proof. split_and!; reflexivity. Qed.

(** [infect] does not check that ids are positions: on [swapped_town] it
    returns normally, draws for a candidate the infected individual is
    nowhere near, and takes the g_value from the healthy individual. *)
Lemma infect_never_checks_ids :
  ~ ids_are_positions (Population.persons swapped_town)
  /\ Virus.infect sample_virus swapped_town (always 0.01%float) 0
     = Ok (Population.mk [ person 1 0 0 1 0; person 0 100 100 0 2 ], 1)
  /\ fst <$> ByPosition.infect sample_virus swapped_town (always 0.01%float) 0
     = Ok (swapped_town, 0).
Proof.
  split; [|split; reflexivity].
  intros Hids. specialize (Hids 0 _ eq_refl). vm_compute in Hids.
  discriminate.
Qed.

(** * Further properties of the population table *)

Lemma select_const_false {A} (xs : list A) (bs : list bool) :
  Forall (fun b => b = false) bs -> select bs xs = [].
Proof.
  intros Hbs. revert xs.
  induction Hbs as [|b bs -> _ IH]; intros [|x xs]; simpl; auto.
Qed.

Lemma select_const_true {A} (xs : list A) : forall bs : list bool,
  Forall (fun b => b = true) bs -> length bs = length xs -> select bs xs = xs.
Proof.
  induction xs as [|x xs IH]; intros [|b bs] Hbs Hlen; simplify_eq/=; try done.
  apply Forall_cons in Hbs as [-> Hbs]. f_equal. by apply IH.
Qed.

(** X1: a population is created with [size] rows of sixteen zeros; nobody
    in it is infected and [get_all_healthy] returns the whole table. *)
Theorem fresh_population_is_healthy (size : nat) :
  length (Population.get_person (Population.init size)) = size
  /\ (forall k c, k < size ->
        cell (Population.get_person (Population.init size)) k c
        = Some 0%float)
  /\ Population.get_all_infected (Population.init size) = []
  /\ Population.get_all_healthy (Population.init size)
     = Population.get_person (Population.init size).
Proof.
  unfold Population.get_person, Population.init. cbn [Population.persons].
  split_and!.
  - apply length_replicate.
  - intros k c Hk. unfold cell. rewrite lookup_replicate_2 by done.
    cbn -[vreplicate]. by rewrite vlookup_replicate.
  - unfold Population.get_all_infected. cbn [Population.persons].
    apply select_const_false, Forall_fmap, Forall_forall.
    intros s Hs. unfold column in Hs.
    apply list_elem_of_fmap in Hs as (r & -> & Hr).
    apply elem_of_replicate in Hr as [-> _].
    cbn -[vreplicate]. by rewrite vlookup_replicate.
  - unfold Population.get_all_healthy. cbn [Population.persons].
    apply select_const_true.
    + apply Forall_fmap, Forall_forall. intros s Hs. unfold column in Hs.
      apply list_elem_of_fmap in Hs as (r & -> & Hr).
      apply elem_of_replicate in Hr as [-> _].
      cbn -[vreplicate]. by rewrite vlookup_replicate.
    + by rewrite length_fmap, length_column.
Qed.

(** X2: for the attributes whose setter and getter use the same column
    (x, y and the active flag), setting a sequence of the population's
    length and reading it back returns that sequence. *)
Theorem set_get_round_trips (self : Population.t) (data : list float) :
  length data = length (Population.persons self) ->
  (exists s, Population.set_x_axis data self = Ok s
             /\ Population.get_x_axis s = data)
  /\ (exists s, Population.set_y_axis data self = Ok s
                /\ Population.get_y_axis s = data)
  /\ (exists s, Population.set_active data self = Ok s
                /\ Population.get_currently_active_info s = data).
Proof.
  intros Hlen. split_and!.
  - apply (set_get_round_trip 2%fin data self Hlen).
  - apply (set_get_round_trip 3%fin data self Hlen).
  - apply (set_get_round_trip 7%fin data self Hlen).
Qed.

Lemma set_get_round_trips_witness :
  exists s,
    Population.set_x_axis [1.5%float; (-2)%float] (Population.init 2) = Ok s
    /\ Population.get_x_axis s = [1.5%float; (-2)%float].
Proof.
  apply (set_get_round_trips (Population.init 2) [1.5%float; (-2)%float]).
  reflexivity.
Defined.

Lemma assign_column_frame (c : fin 16) (data : list float) (a a' : ndarray) :
  assign_column c data a = Ok a' ->
  length a' = length a
  /\ forall c', c <> c' -> column c' a' = column c' a.
Proof.
  unfold assign_column. destruct (decide (length data = length a)) as [Hlen|].
  - intros [= <-]. split.
    + rewrite length_zip_with. lia.
    + intros c' Hc. by apply zip_insert_column_ne.
  - destruct data as [|v [|w data]]; try done. intros [= <-]. split.
    + by rewrite length_fmap.
    + intros c' Hc. unfold column. rewrite <- list_fmap_compose.
      apply list_fmap_ext. intros k r _. simpl.
      by rewrite vlookup_insert_ne.
Qed.

(** X3: a setter that succeeds keeps the number of rows and changes a
    single column, whatever the data. *)
Theorem setter_changes_one_column
    (setter : list float -> Population.t -> result Population.t)
    (self self' : Population.t) (data : list float) :
  In setter setters ->
  setter data self = Ok self' ->
  length (Population.persons self') = length (Population.persons self)
  /\ exists c, forall c', c <> c' ->
       column c' (Population.persons self')
       = column c' (Population.persons self).
Proof.
  intros Hin Hset. destruct (setters_are_columns _ Hin) as [c ->].
  unfold Population.set_column in Hset.
  destruct (assign_column c data (Population.persons self)) as [a'|] eqn:Ha;
    [|done].
  cbn in Hset. injection Hset as <-. cbn [Population.persons].
  apply assign_column_frame in Ha as [Hlen Hframe].
  split; [done|]. by exists c.
Qed.

Lemma setter_changes_one_column_witness :
  length (Population.persons
            (Population.mk [vinsert 6%fin 3%float (vreplicate 16 0%float)]))
  = length (Population.persons (Population.init 1)).
Proof.
  apply (setter_changes_one_column Population.set_speed (Population.init 1)
           _ [3%float]).
  - unfold setters. simpl. do 5 right. by left.
  - reflexivity.
Defined.

Lemma vinsert_vinsert (c : fin 16) (v w : float) (r : vec float 16) :
  vinsert c w (vinsert c v r) = vinsert c w r.
Proof.
  apply vec_eq. intros i. destruct (decide (c = i)) as [->|Hne].
  - by rewrite !vlookup_insert.
  - by rewrite !vlookup_insert_ne.
Qed.

Lemma zip_insert_twice (c : fin 16) (a : ndarray) :
  forall d1 d2 : list float,
  length d1 = length a -> length d2 = length a ->
  zip_with (fun (r : vec float 16) v => vinsert c v r)
    (zip_with (fun (r : vec float 16) v => vinsert c v r) a d1) d2
  = zip_with (fun (r : vec float 16) v => vinsert c v r) a d2.
Proof.
  induction a as [|r a IH]; intros [|v d1] [|w d2] H1 H2;
    simplify_eq/=; try done.
  rewrite vinsert_vinsert. f_equal. by apply IH.
Qed.

(** X4: what [set_current_state] stores is overwritten by a later
    [set_at_destination] (and the other way round): the two setters share
    their column, so only the last of the two sequences remains. *)
Theorem state_and_destination_overwrite_each_other
    (self : Population.t) (d1 d2 : list float) :
  length d1 = length (Population.persons self) ->
  length d2 = length (Population.persons self) ->
  (s ← Population.set_current_state d1 self; Population.set_at_destination d2 s)
  = Population.set_at_destination d2 self
  /\ (s ← Population.set_at_destination d1 self;
       Population.set_current_state d2 s)
     = Population.set_current_state d2 self.
Proof.
  intros H1 H2.
  unfold Population.set_current_state, Population.set_at_destination,
    Population.set_column.
  rewrite !assign_column_matching by done. cbn.
  rewrite assign_column_matching by (rewrite length_zip_with; lia).
  cbn. by rewrite zip_insert_twice.
Qed.

Lemma state_and_destination_overwrite_each_other_witness :
  (s ← Population.set_current_state [1%float] (Population.init 1);
   Population.set_at_destination [0%float] s)
  = Population.set_at_destination [0%float] (Population.init 1).
Proof.
  apply (state_and_destination_overwrite_each_other (Population.init 1)
           [1%float] [0%float]); reflexivity.
Defined.

(** X5: [initialize_positions] with two bounds per axis and two drawn
    vectors of the population's length stores the vectors so that
    [get_x_axis] and [get_y_axis] return them, and changes no other
    column; a drawn vector whose length is neither the population size
    nor 1 makes it fail with a [ValueError], and a list of fewer than two
    bounds with an [IndexError]. *)
Theorem initialize_positions_round_trip (self : Population.t)
    (x_lo x_hi y_lo y_hi : float) (xs ys : list float) :
  (length xs = length (Population.persons self) ->
   length ys = length (Population.persons self) ->
   exists s,
     Population.initialize_positions [x_lo; x_hi] [y_lo; y_hi] xs ys self
     = Ok s
     /\ Population.get_x_axis s = xs
     /\ Population.get_y_axis s = ys
     /\ forall c, c <> 2%fin -> c <> 3%fin ->
          column c (Population.persons s) = column c (Population.persons self))
  /\ (length xs <> length (Population.persons self) -> length xs <> 1 ->
      Population.initialize_positions [x_lo; x_hi] [y_lo; y_hi] xs ys self
      = Raise ValueError)
  /\ (length xs = length (Population.persons self) ->
      length ys <> length (Population.persons self) -> length ys <> 1 ->
      Population.initialize_positions [x_lo; x_hi] [y_lo; y_hi] xs ys self
      = Raise ValueError)
  /\ Population.initialize_positions [x_lo] [y_lo; y_hi] xs ys self
     = Raise IndexError
  /\ Population.initialize_positions [x_lo; x_hi] [y_lo] xs ys self
     = Raise IndexError
  /\ (forall x_bounds y_bounds : list float,
        length x_bounds < 2 \/ length y_bounds < 2 ->
        Population.initialize_positions x_bounds y_bounds xs ys self
        = Raise IndexError).
Proof.
  unfold Population.initialize_positions, Population.set_x_axis,
    Population.set_y_axis, list_getitem.
  cbn [lookup list_lookup mbind result_bind].
  split_and!; [| | |done|done|].
  - intros Hx Hy.
    destruct (set_column_matching 2%fin xs self Hx) as (s1 & -> & X1 & F1).
    cbn.
    assert (length ys = length (Population.persons s1)) as Hy'.
    { rewrite <- (length_column 2%fin (Population.persons s1)), X1.
      congruence. }
    destruct (set_column_matching 3%fin ys s1 Hy') as (s2 & -> & Y2 & F2).
    exists s2. split_and!; try done.
    + unfold Population.get_x_axis. by rewrite F2.
    + intros c H2 H3. by rewrite F2, F1.
  - intros Hx Hx1. unfold Population.set_column.
    by rewrite assign_column_mismatch.
  - intros Hx Hy Hy1.
    destruct (set_column_matching 2%fin xs self Hx) as (s1 & -> & X1 & F1).
    cbn. unfold Population.set_column.
    rewrite assign_column_mismatch; [done| |done].
    rewrite <- (length_column 2%fin (Population.persons s1)), X1. congruence.
  - intros x_bounds y_bounds Hshort.
    destruct x_bounds as [|x0 [|x1 x_bounds]]; [done|done|].
    destruct y_bounds as [|y0 [|y1 y_bounds]]; [done|done|].
    simpl in Hshort. lia.
Qed.

Lemma initialize_positions_round_trip_witness :
  exists s,
    Population.initialize_positions [0%float; 10%float] [0%float; 10%float]
      [1%float; 2%float] [3%float; 4%float] (Population.init 2) = Ok s
    /\ Population.get_x_axis s = [1%float; 2%float]
    /\ Population.get_y_axis s = [3%float; 4%float].
Proof.
  destruct (initialize_positions_round_trip (Population.init 2)
              0%float 10%float 0%float 10%float
              [1%float; 2%float] [3%float; 4%float]) as [H _].
  destruct (H eq_refl eq_refl) as (s & Hs & Hx & Hy & _).
  by exists s.
Defined.

Lemma length_range (low high : Z) :
  length (Population.range low high) = Z.to_nat (high - low).
Proof. unfold Population.range. by rewrite length_fmap, length_seq. Qed.

Lemma lookup_range (low high : Z) (k : nat) :
  k < Z.to_nat (high - low) ->
  Population.range low high !! k = Some (low + Z.of_nat k)%Z.
Proof.
  intros Hk. unfold Population.range.
  rewrite list_lookup_fmap, lookup_seq_lt by done. done.
Qed.

Lemma float_of_int_cases (z : Z) :
  float_of_int z = Ok (Z2F z) \/ float_of_int z = Raise OverflowError.
Proof. unfold float_of_int. destruct (Prim2SF (Z2F z)); auto. Qed.

Lemma float_of_int_Ok (z : Z) :
  is_Ok (float_of_int z) -> float_of_int z = Ok (Z2F z).
Proof.
  intros [x Hx]. destruct (float_of_int_cases z) as [H|H]; [done|].
  rewrite H in Hx. discriminate.
Qed.

Lemma mapM_float_of_int_Ok (zs : list Z) :
  Forall (fun z => is_Ok (float_of_int z)) zs ->
  mapM float_of_int zs = Ok (Z2F <$> zs).
Proof.
  induction 1 as [|z zs Hz _ IH]; [done|].
  cbn. rewrite (float_of_int_Ok z Hz). cbn. by rewrite IH.
Qed.

Lemma mapM_float_of_int_Raise (zs : list Z) :
  Exists (fun z => float_of_int z = Raise OverflowError) zs ->
  mapM float_of_int zs = Raise OverflowError.
Proof.
  induction zs as [|z zs IH]; intros Hex; [by apply Exists_nil in Hex|].
  cbn. destruct (float_of_int_cases z) as [Hz|Hz]; rewrite Hz; [|done].
  cbn. apply Exists_cons in Hex as [Hex|Hex].
  - rewrite Hz in Hex. discriminate.
  - by rewrite IH.
Qed.

Lemma initialize_id_cells (low high : Z) (self : Population.t) :
  Forall (fun z => is_Ok (float_of_int z)) (Population.range low high) ->
  Z.to_nat (high - low) = length (Population.persons self) ->
  exists s,
    Population.initialize_id low high self = Ok s
    /\ (forall k, k < length (Population.persons self) ->
          cell (Population.persons s) k 0%fin
          = Some (Z2F (low + Z.of_nat k)))
    /\ forall c, c <> 0%fin ->
         column c (Population.persons s) = column c (Population.persons self).
Proof.
  intros Hconv Hspan. unfold Population.initialize_id.
  rewrite (mapM_float_of_int_Ok _ Hconv).
  destruct (set_column_matching 0%fin (Z2F <$> Population.range low high) self)
    as (s & Hs & H0 & F).
  { by rewrite length_fmap, length_range. }
  exists s. split_and!; [done| |].
  - intros k Hk. unfold cell.
    pose proof (column_lookup 0%fin (Population.persons s) k) as Hcol.
    rewrite H0, list_lookup_fmap, lookup_range in Hcol by lia.
    by rewrite <- Hcol.
  - intros c Hc. by apply F.
Qed.

(** X6: when every integer of [range(low, high)] has a float64
    ([float] does not overflow on it), [initialize_id(low, high)] with
    [high - low] equal to the population size gives row [k] the id
    [float(low + k)] and changes no other column; with any other span
    than the size or 1 it fails with a [ValueError], and with a span of 1
    every row gets the id [float(low)].  When some integer of the range
    is too large for a float64 the call raises [OverflowError]. *)
Theorem initialize_id_sequential (low high : Z) (self : Population.t) :
  (Forall (fun z => is_Ok (float_of_int z)) (Population.range low high) ->
   (Z.to_nat (high - low) = length (Population.persons self) ->
    exists s,
      Population.initialize_id low high self = Ok s
      /\ (forall k, k < length (Population.persons self) ->
            cell (Population.persons s) k 0%fin
            = Some (Z2F (low + Z.of_nat k))
            /\ float_of_int (low + Z.of_nat k) = Ok (Z2F (low + Z.of_nat k)))
      /\ forall c, c <> 0%fin ->
           column c (Population.persons s)
           = column c (Population.persons self))
   /\ (Z.to_nat (high - low) <> length (Population.persons self) ->
       Z.to_nat (high - low) <> 1 ->
       Population.initialize_id low high self = Raise ValueError)
   /\ (length (Population.persons self) <> 1 -> (high - low = 1)%Z ->
       exists s,
         Population.initialize_id low high self = Ok s
         /\ column 0%fin (Population.persons s)
            = replicate (length (Population.persons self)) (Z2F low)))
  /\ (Exists (fun z => float_of_int z = Raise OverflowError)
        (Population.range low high) ->
      Population.initialize_id low high self = Raise OverflowError).
Proof.
  split; [intros Hconv; split_and!|].
  - intros Hspan.
    destruct (initialize_id_cells low high self Hconv Hspan)
      as (s & Hs & Hid & F).
    exists s. split_and!; [done| |done].
    intros k Hk. split; [by apply Hid|].
    apply float_of_int_Ok.
    rewrite Forall_lookup in Hconv. apply (Hconv k).
    apply lookup_range. lia.
  - intros Hspan H1. unfold Population.initialize_id.
    rewrite (mapM_float_of_int_Ok _ Hconv). cbn.
    unfold Population.set_column.
    rewrite assign_column_mismatch; [done| |];
      by rewrite length_fmap, length_range.
  - intros HN Hspan. unfold Population.initialize_id.
    rewrite (mapM_float_of_int_Ok _ Hconv). cbn.
    unfold Population.set_column, Population.range.
    rewrite Hspan.
    change (Z2F <$> ((fun k : nat => (low + Z.of_nat k)%Z) <$> seq 0 (Z.to_nat 1)))
      with [Z2F (low + 0)].
    rewrite Z.add_0_r, assign_column_broadcast by done. cbn.
    eexists. split; [done|]. cbn [Population.persons].
    unfold column. rewrite <- list_fmap_compose.
    generalize (Population.persons self) as a.
    induction a as [|r a IH]; [done|].
    rewrite fmap_cons. cbn [length replicate]. rewrite IH. f_equal.
    cbn. by rewrite vlookup_insert.
  - intros Hex. unfold Population.initialize_id.
    by rewrite (mapM_float_of_int_Raise _ Hex).
Qed.

Lemma initialize_id_sequential_witness :
  exists s,
    Population.initialize_id 5 8 (Population.init 3) = Ok s
    /\ cell (Population.persons s) 2 0%fin = Some 7%float.
Proof.
  destruct (initialize_id_sequential 5 8 (Population.init 3)) as [H _].
  destruct H as [H _].
  { repeat constructor; eexists; reflexivity. }
  destruct (H eq_refl) as (s & Hs & Hid & _).
  exists s. split; [done|]. apply (Hid 2). simpl. lia.
Defined.

(** An id of 2^1024 has no float64: the assignment raises. *)
Lemma initialize_id_overflow :
  Population.initialize_id (2 ^ 1024) (2 ^ 1024 + 1) (Population.init 1)
  = Raise OverflowError.
Proof. vm_compute. reflexivity. Qed.

Lemma ints_round_trip_check_sound (B : Z) :
  ints_round_trip_check B = true -> ints_round_trip B.
Proof.
  unfold ints_round_trip_check, ints_round_trip.
  rewrite forallb_forall. intros Hall k Hk.
  assert (In k (seqZ 0 B)) as Hin.
  { apply list_elem_of_In, elem_of_seqZ. lia. }
  apply Hall in Hin. destruct (int_of_float (Z2F k)) as [z|]; [|done].
  apply Z.eqb_eq in Hin. by subst.
Qed.

Lemma ints_round_trip_1024 : ints_round_trip 1024.
Proof. apply ints_round_trip_check_sound. vm_compute. reflexivity. Qed.

(** X7: [initialize_id(0, N)] on a population of [N] rows establishes
    what [infect] relies on, that every id read back with [int] is its
    row position (for every [N] up to a bound below which the integers
    survive the conversion to float64 and back; checked for 1024). *)
Theorem initialize_id_makes_ids_positions (B : Z) (self s : Population.t) :
  ints_round_trip B ->
  (Z.of_nat (length (Population.persons self)) <= B)%Z ->
  Population.initialize_id 0 (Z.of_nat (length (Population.persons self))) self
  = Ok s ->
  ids_are_positions (Population.persons s).
Proof.
  intros Hrt HB Hinit.
  destruct (initialize_id_cells 0
              (Z.of_nat (length (Population.persons self))) self)
    as (s' & Hs' & Hid & F); [|lia|].
  { apply Forall_forall. intros z Hz.
    unfold Population.range in Hz.
    apply list_elem_of_fmap in Hz as (k & -> & Hk).
    apply elem_of_seq in Hk. rewrite Z.add_0_l.
    assert (int_of_float (Z2F (Z.of_nat k)) = Ok (Z.of_nat k)) as Hint
      by (apply Hrt; lia).
    unfold float_of_int. unfold int_of_float in Hint.
    destruct (Prim2SF (Z2F (Z.of_nat k))); try discriminate; by eexists. }
  rewrite Hinit in Hs'. injection Hs' as <-.
  intros k r Hr.
  assert (k < length (Population.persons self)) as Hk.
  { apply lookup_lt_Some in Hr.
    rewrite <- (length_column 1%fin), F, length_column in Hr; done. }
  specialize (Hid k Hk). unfold cell in Hid. rewrite Hr in Hid.
  injection Hid as Hid. unfold index.id. rewrite Hid, Z.add_0_l.
  apply Hrt. lia.
Qed.

Lemma initialize_id_makes_ids_positions_witness :
  ids_are_positions
    (Population.persons
       (Population.mk [ vinsert 0%fin 0%float (vreplicate 16 0%float);
                        vinsert 0%fin 1%float (vreplicate 16 0%float) ])).
Proof.
  apply (initialize_id_makes_ids_positions 1024 (Population.init 2)).
  - apply ints_round_trip_1024.
  - simpl. lia.
  - reflexivity.
Defined.

Lemma replace_chain_in_range (v : Z) :
  (0 <= v < 4)%Z ->
  (let r0 := if (v =? 0)%Z then 0%Z else v in
   let r1 := if (r0 =? 1)%Z then 50%Z else r0 in
   let r2 := if (r1 =? 2)%Z then 70%Z else r1 in
   if (r2 =? 3)%Z then 90%Z else r2)
  = mask_effective_range v.
Proof.
  intros Hv.
  assert (v = 0 \/ v = 1 \/ v = 2 \/ v = 3)%Z as [->|[->|[->| ->]]] by lia;
    reflexivity.
Qed.

Lemma mask_replacements (randint : list Z) :
  Forall (fun v => (0 <= v < 4)%Z) randint ->
  Population.replace_eq 3 90
    (Population.replace_eq 2 70
       (Population.replace_eq 1 50 (Population.replace_eq 0 0 randint)))
  = mask_effective_range <$> randint.
Proof.
  unfold Population.replace_eq. rewrite <- !list_fmap_compose.
  intros Hall. apply Forall_fmap_ext_1.
  eapply Forall_impl; [exact Hall|].
  intros v Hv. simpl in Hv |- *. by apply replace_chain_in_range.
Qed.

Lemma initialize_mask_eff_column (self : Population.t) (randint : list Z) :
  length randint = length (Population.persons self) ->
  Forall (fun v => (0 <= v < 4)%Z) randint ->
  exists s,
    Population.initialize_mask_eff randint self = Ok s
    /\ column 15%fin (Population.persons s)
       = (fun v => Z2F (mask_effective_range v)) <$> randint
    /\ forall c, c <> 15%fin ->
         column c (Population.persons s) = column c (Population.persons self).
Proof.
  intros Hlen Hall. unfold Population.initialize_mask_eff. cbv zeta.
  rewrite (mask_replacements _ Hall), <- list_fmap_compose.
  destruct (set_column_matching 15%fin
              ((Z2F ∘ mask_effective_range) <$> randint) self)
    as (s & Hs & H15 & F); [by rewrite length_fmap|].
  exists s. unfold Population.set_mask_effectiveness.
  split_and!; [done|done|].
  intros c Hc. by apply F.
Qed.

(** X8: [initialize_mask_eff] maps the drawn categories 0, 1, 2, 3 to the
    percentages 0, 50, 70, 90 (the four in-place replacements do not
    interfere with each other), stores them in column 15, and so every
    stored mask effectiveness is one of these four values. *)
Theorem initialize_mask_eff_values
    (self : Population.t) (randint : list Z) :
  length randint = length (Population.persons self) ->
  Forall (fun v => (0 <= v < 4)%Z) randint ->
  exists s,
    Population.initialize_mask_eff randint self = Ok s
    /\ column 15%fin (Population.persons s)
       = (fun v => Z2F (mask_effective_range v)) <$> randint
    /\ Forall (fun m => m ∈ [0%float; 50%float; 70%float; 90%float])
         (column 15%fin (Population.persons s))
    /\ forall c, c <> 15%fin ->
         column c (Population.persons s) = column c (Population.persons self).
Proof.
  intros Hlen Hall.
  destruct (initialize_mask_eff_column self randint Hlen Hall)
    as (s & Hs & H15 & F).
  exists s. split_and!; [done|done| |].
  - rewrite H15. apply Forall_fmap.
    eapply Forall_impl; [exact Hall|].
    intros v Hv. simpl in Hv |- *.
    assert (v = 0 \/ v = 1 \/ v = 2 \/ v = 3)%Z as [->|[->|[->| ->]]] by lia.
    + apply list_elem_of_In. left. reflexivity.
    + apply list_elem_of_In. right. left. reflexivity.
    + apply list_elem_of_In. do 2 right. left. reflexivity.
    + apply list_elem_of_In. do 3 right. left. reflexivity.
  - intros c Hc. by apply F.
Qed.

Lemma initialize_mask_eff_values_witness :
  exists s,
    Population.initialize_mask_eff [3; 0; 2; 1]%Z (Population.init 4) = Ok s
    /\ column 15%fin (Population.persons s)
       = (fun v => Z2F (mask_effective_range v)) <$> [3; 0; 2; 1]%Z.
Proof.
  destruct (initialize_mask_eff_values (Population.init 4) [3; 0; 2; 1]%Z)
    as (s & Hs & H15 & _).
  - reflexivity.
  - repeat constructor; lia.
  - by exists s.
Defined.

(** X9: after [initialize_mask_eff] and then
    [initialize_susceptibility], every susceptibility is the value
    computed from one of the four percentages, and lies in (0, 0.1]. *)
Theorem susceptibility_after_masks
    (self : Population.t) (randint : list Z) :
  length randint = length (Population.persons self) ->
  Forall (fun v => (0 <= v < 4)%Z) randint ->
  exists s1 s2,
    Population.initialize_mask_eff randint self = Ok s1
    /\ Population.initialize_susceptibility s1 = Ok s2
    /\ column 13%fin (Population.persons s2)
       = (fun v => susceptibility_of (Z2F (mask_effective_range v)))
           <$> randint
    /\ Forall (fun x => (0 <? x)%float = true /\ (x <=? 0.1)%float = true)
         (column 13%fin (Population.persons s2)).
Proof.
  intros Hlen Hall.
  destruct (initialize_mask_eff_column self randint Hlen Hall)
    as (s1 & Hs1 & H15 & _).
  destruct (initialize_susceptibility_stores_aux s1) as (s2 & Hs2 & H13).
  exists s1, s2. split_and!; [done|done| |].
  - by rewrite H13, H15, <- list_fmap_compose.
  - rewrite H13, H15, <- list_fmap_compose. apply Forall_fmap.
    eapply Forall_impl; [exact Hall|].
    intros v Hv. simpl in Hv |- *.
    assert (v = 0 \/ v = 1 \/ v = 2 \/ v = 3)%Z as [->|[->|[->| ->]]] by lia;
      split; reflexivity.
Qed.

Lemma susceptibility_after_masks_witness :
  exists s1 s2,
    Population.initialize_mask_eff [1; 3]%Z (Population.init 2) = Ok s1
    /\ Population.initialize_susceptibility s1 = Ok s2
    /\ column 13%fin (Population.persons s2)
       = (fun v => susceptibility_of (Z2F (mask_effective_range v)))
           <$> [1; 3]%Z.
Proof.
  destruct (susceptibility_after_masks (Population.init 2) [1; 3]%Z)
    as (s1 & s2 & H1 & H2 & H13 & _).
  - reflexivity.
  - repeat constructor; lia.
  - by exists s1, s2.
Defined.

Lemma get_all_healthy_filter (population : Population.t) :
  Population.get_all_healthy population
  = List.filter (fun r : vec float 16 => (r !!! 9%fin =? 0)%float)
      (Population.persons population).
Proof.
  unfold Population.get_all_healthy, column.
  rewrite <- list_fmap_compose.
  rewrite <- (list_fmap_id (Population.persons population)) at 2.
  rewrite select_fmap_filter. by rewrite list_fmap_id.
Qed.

Lemma filter_disjoint_lengths {A} (f g : A -> bool) (l : list A) :
  (forall x, f x = true -> g x = false) ->
  length (List.filter f l) + length (List.filter g l) <= length l.
Proof.
  intros Hfg. induction l as [|x l IH]; [done|].
  simpl. destruct (f x) eqn:Hf.
  - rewrite (Hfg x Hf). simpl. lia.
  - destruct (g x); simpl; lia.
Qed.

(** X10: the rows [get_all_infected] returns are rows of the table in
    state 1, those [get_all_healthy] returns are rows in state 0, no row
    is returned by both, and a row in any other state (immune, dead) is
    returned by neither. *)
Theorem infected_and_healthy_are_disjoint (self : Population.t) :
  (forall r, r ∈ Population.get_all_infected self <->
     r ∈ Population.persons self /\ (r !!! 9%fin =? 1)%float = true)
  /\ (forall r, r ∈ Population.get_all_healthy self <->
        r ∈ Population.persons self /\ (r !!! 9%fin =? 0)%float = true)
  /\ (forall r, r ∈ Population.get_all_infected self ->
        r ∉ Population.get_all_healthy self)
  /\ length (Population.get_all_infected self)
     + length (Population.get_all_healthy self)
     <= length (Population.persons self).
Proof.
  rewrite get_all_infected_filter, get_all_healthy_filter.
  assert (forall (f : vec float 16 -> bool) r,
            r ∈ List.filter f (Population.persons self)
            <-> r ∈ Population.persons self /\ f r = true) as Hfilter.
  { intros f r. rewrite !list_elem_of_In. apply filter_In. }
  split_and!.
  - intros r. apply Hfilter.
  - intros r. apply Hfilter.
  - intros r [_ H1]%Hfilter [_ H0]%Hfilter.
    apply infected_not_healthy in H1. congruence.
  - apply filter_disjoint_lengths. intros r. apply infected_not_healthy.
Qed.

(** * Further properties of the infection step *)

(** X11: when nobody is infected, [infect] returns the population as it
    is and draws no random number, whatever the virus parameters (even a
    negative [infection_range], whose square root is never taken). *)
Theorem infect_without_infected (self : Virus.t) (population : Population.t)
    (uniform : nat -> float) (n : nat) :
  Population.get_all_infected population = [] ->
  Virus.infect self population uniform n = Ok (population, n).
Proof.
  intros Hnone. unfold Virus.infect. cbv zeta. rewrite Hnone.
  cbn. by destruct population.
Qed.

Lemma infect_without_infected_witness :
  Virus.infect (Virus.mk (-1) 0 0 0 0 0) (Population.init 3)
    (always 0.01%float) 0
  = Ok (Population.init 3, 0).
Proof.
  apply (infect_without_infected (Virus.mk (-1) 0 0 0 0 0) (Population.init 3)).
  reflexivity.
Defined.

(** X12: when every id is its row position and [infection_range] is not
    negative, [infect] returns a population: it raises no exception. *)
Theorem infect_raises_nothing (self : Virus.t) (population : Population.t)
    (uniform : nat -> float) (n : nat) :
  ids_are_positions (Population.persons population) ->
  (Virus.infection_range self <? 0)%float = false ->
  exists pop' n', Virus.infect self population uniform n = Ok (pop', n').
Proof.
  intros Hids Hrange.
  destruct (infect_returns self population uniform n Hids Hrange)
    as [[pop' n'] H].
  by exists pop', n'.
Qed.

Lemma infect_raises_nothing_witness :
  exists pop' n',
    Virus.infect sample_virus sample_town (always 0.5%float) 0 = Ok (pop', n').
Proof.
  apply (infect_raises_nothing sample_virus sample_town (always 0.5%float) 0).
  - apply sample_town_ids.
  - reflexivity.
Defined.

(** X13: with a negative [infection_range], [infect] fails with the
    [ValueError] of [math.sqrt] as soon as one individual is infected
    (ids being row positions). *)
Theorem infect_negative_range (self : Virus.t) (population : Population.t)
    (uniform : nat -> float) (n : nat) :
  ids_are_positions (Population.persons population) ->
  (Virus.infection_range self <? 0)%float = true ->
  Population.get_all_infected population <> [] ->
  Virus.infect self population uniform n = Raise ValueError.
Proof.
  intros Hids Hrange Hsome.
  unfold Virus.infect. cbv zeta. unfold Population.get_person.
  destruct (Population.get_all_infected population) as [|idx rest] eqn:Hinf;
    [done|].
  assert (idx ∈ Population.persons population) as Hin.
  { assert (idx ∈ Population.get_all_infected population) as Hidx
      by (rewrite Hinf; by left).
    rewrite get_all_infected_filter in Hidx.
    by apply list_elem_of_In, filter_In in Hidx as [?%list_elem_of_In _]. }
  apply list_elem_of_lookup in Hin as [k Hk].
  cbn [Virus.infect_loop]. unfold Virus.infect_turn.
  rewrite (bounds_eval self _ idx index.x_axis k idx (Hids k idx Hk) Hk).
  unfold math_sqrt. by rewrite Hrange.
Qed.

Lemma infect_negative_range_witness :
  Virus.infect (Virus.mk (-4) 0 0 0 0 0) sample_town (always 0.5%float) 0
  = Raise ValueError.
Proof.
  apply (infect_negative_range (Virus.mk (-4) 0 0 0 0 0) sample_town).
  - apply sample_town_ids.
  - reflexivity.
  - discriminate.
Defined.

Lemma infect_Ok_by_position (self : Virus.t) (population pop' : Population.t)
    (uniform : nat -> float) (n n' : nat) :
  ids_are_positions (Population.persons population) ->
  Virus.infect self population uniform n = Ok (pop', n') ->
  exists trace,
    Traced.infect self population uniform n = Ok (pop', n', trace)
    /\ ByPosition.infect_loop self
         (ByPosition.positions
            (fun r => (r !!! index.current_state =? 1)%float)
            (Population.persons population))
         uniform n (Population.persons population)
       = Ok (Population.persons pop', n', trace).
Proof.
  intros Hids. rewrite infect_erase.
  destruct (Traced.infect self population uniform n)
    as [[[p1 n1] trace]|] eqn:Hrun; [|done].
  intros [= <- <-]. exists trace. split; [done|].
  rewrite traced_infect_by_position in Hrun by done.
  by apply by_position_infect_inv.
Qed.

Lemma cells_column (c : fin 16) (a a' : ndarray) :
  (forall r, cell a' r c = cell a r c) -> column c a' = column c a.
Proof.
  intros Hcell. apply list_eq. intros k. rewrite !column_lookup.
  apply Hcell.
Qed.

(** X14: a call of [infect] keeps the number of rows, changes no column
    other than the disease state (9) and the g_value (12), and leaves
    every id equal to its row position, so the next call finds its
    precondition again. *)
Theorem infect_preserves_table_shape (self : Virus.t)
    (population pop' : Population.t) (uniform : nat -> float) (n n' : nat) :
  ids_are_positions (Population.persons population) ->
  Virus.infect self population uniform n = Ok (pop', n') ->
  length (Population.persons pop') = length (Population.persons population)
  /\ (forall c, c <> 9%fin -> c <> 12%fin ->
        column c (Population.persons pop')
        = column c (Population.persons population))
  /\ ids_are_positions (Population.persons pop').
Proof.
  intros Hids Hrun.
  destruct (infect_Ok_by_position _ _ _ _ _ _ Hids Hrun) as (trace & _ & Hloop).
  apply by_position_loop_effect in Hloop as (_ & L & F & _); [|done].
  split_and!; [done| |].
  - intros c H9 H12. apply cells_column. intros r. by apply F.
  - eapply ids_are_positions_frame; [exact L| |exact Hids].
    intros r. by apply F.
Qed.

Lemma infect_preserves_table_shape_witness :
  ids_are_positions
    [ person 0 0 0 1 0; person 1 1 1 1 0; person 2 0.5 (-1) 0 0 ].
Proof.
  apply (infect_preserves_table_shape sample_virus sample_town
           (Population.mk [ person 0 0 0 1 0; person 1 1 1 1 0;
                            person 2 0.5 (-1) 0 0 ])
           (always 0.01%float) 0 2).
  - apply sample_town_ids.
  - reflexivity.
Defined.

(** X15: when every id is its row position, the only change [infect]
    makes to a disease state is from healthy to infected: every row
    either keeps the state it had, or was healthy and now holds 1.
    Infected, immune and dead individuals keep their state. *)
Theorem infect_only_infects_healthy (self : Virus.t)
    (population pop' : Population.t) (uniform : nat -> float) (n n' : nat)
    (k : nat) :
  ids_are_positions (Population.persons population) ->
  Virus.infect self population uniform n = Ok (pop', n') ->
  cell (Population.persons pop') k 9%fin
  = cell (Population.persons population) k 9%fin
  \/ (healthy_at (Population.persons population) k
      /\ cell (Population.persons pop') k 9%fin = Some 1%float).
Proof.
  intros Hids Hrun.
  destruct (infect_Ok_by_position _ _ _ _ _ _ Hids Hrun) as (trace & _ & Hloop).
  apply by_position_loop_effect in Hloop as (_ & _ & _ & _ & S & H & _);
    [|done].
  destruct (decide (Exists (fun t => k ∈ hits t) trace)) as [Hhit|Hnone].
  - apply Exists_exists in Hhit as (t & Ht & Hk).
    right. destruct (H t k Ht Hk). by split.
  - left. apply S. intros t Ht Hk. apply Hnone, Exists_exists. by exists t.
Qed.

Lemma infect_only_infects_healthy_witness :
  cell [ person 0 0 0 1 0; person 1 1 1 1 0; person 2 0.5 (-1) 0 0 ] 1 9%fin
  = cell (Population.persons sample_town) 1 9%fin
  \/ (healthy_at (Population.persons sample_town) 1
      /\ cell [ person 0 0 0 1 0; person 1 1 1 1 0; person 2 0.5 (-1) 0 0 ]
           1 9%fin = Some 1%float).
Proof.
  apply (infect_only_infects_healthy sample_virus sample_town
           (Population.mk [ person 0 0 0 1 0; person 1 1 1 1 0;
                            person 2 0.5 (-1) 0 0 ])
           (always 0.01%float) 0 2 1).
  - apply sample_town_ids.
  - reflexivity.
Defined.

Lemma traced_candidates_draws (idx : vec float 16) (uniform : nat -> float)
    (tmp : list float) :
  forall (n : nat) (a a' : ndarray) (n' : nat) (hs : list nat),
  Traced.infect_candidates idx tmp uniform n a = Ok (a', n', hs) ->
  n' = n + length tmp.
Proof.
  induction tmp as [|i tmp IH]; intros n a a' n' hs.
  - intros [= <- <- <-]. simpl. lia.
  - cbn [Traced.infect_candidates].
    destruct (Traced.infect_candidate idx i (uniform n) a) as [[a1 h]|];
      [|done]. cbn.
    destruct (Traced.infect_candidates idx tmp uniform (S n) a1)
      as [[[a2 n2] hs2]|] eqn:E2; [|done]. cbn.
    intros [= <- <- <-]. apply IH in E2. simpl. lia.
Qed.

Lemma traced_turn_draws (self : Virus.t) (idx : vec float 16)
    (uniform : nat -> float) (n : nat) (a a' : ndarray) (n' : nat) (t : turn) :
  Traced.infect_turn self idx uniform n a = Ok (a', n', t) ->
  n' = n + length (candidates t).
Proof.
  unfold Traced.infect_turn.
  destruct (Virus.bounds self a idx index.x_axis) as [xb|]; [|done]. cbn.
  destruct (Virus.bounds self a idx index.y_axis) as [yb|]; [|done]. cbn.
  destruct (Virus.find_nearby a xb yb) as [tmp|]; [|done]. cbn.
  destruct (int_of_float (idx !!! 0%fin)) as [k|]; [|done]. cbn.
  destruct (row_index (length a) k) as [row|]; [|done]. cbn.
  destruct (Traced.infect_candidates idx tmp uniform n a)
    as [[[a1 n1] hs]|] eqn:E; [|done]. cbn.
  intros [= <- <- <-]. simpl. by eapply traced_candidates_draws.
Qed.

Lemma traced_loop_draws (self : Virus.t) (uniform : nat -> float)
    (infected_idx : ndarray) :
  forall (n : nat) (a a' : ndarray) (n' : nat) (trace : list turn),
  Traced.infect_loop self infected_idx uniform n a = Ok (a', n', trace) ->
  n' = n + sum_list (length ∘ candidates <$> trace).
Proof.
  induction infected_idx as [|idx rest IH]; intros n a a' n' trace.
  - intros [= <- <- <-]. simpl. lia.
  - cbn [Traced.infect_loop].
    destruct (Traced.infect_turn self idx uniform n a)
      as [[[a1 n1] t1]|] eqn:E1; [|done]. cbn.
    destruct (Traced.infect_loop self rest uniform n1 a1)
      as [[[a2 n2] ts]|] eqn:E2; [|done]. cbn.
    intros [= <- <- <-]. apply traced_turn_draws in E1. apply IH in E2.
    rewrite fmap_cons. simpl. lia.
Qed.

(** X16: [infect] draws exactly one random number for every candidate
    that [find_nearby] returns, also after the infector's g_value is used
    up: the number of draws of a call is the total number of candidates
    of its turns. *)
Theorem infect_draws_once_per_candidate (self : Virus.t)
    (population pop' : Population.t) (uniform : nat -> float) (n n' : nat)
    (trace : list turn) :
  Traced.infect self population uniform n = Ok (pop', n', trace) ->
  Virus.infect self population uniform n = Ok (pop', n')
  /\ n' = n + sum_list (length ∘ candidates <$> trace).
Proof.
  intros Hrun. split; [by rewrite infect_erase, Hrun|].
  unfold Traced.infect in Hrun. cbv zeta in Hrun.
  destruct (Traced.infect_loop _ _ _ _ _) as [[[a1 n1] ts]|] eqn:E; [|done].
  cbn in Hrun. injection Hrun as <- <- <-.
  by eapply traced_loop_draws.
Qed.

Lemma infect_draws_once_per_candidate_witness :
  2 = 0 + sum_list (length ∘ candidates
                      <$> [ mk_turn 0 [1%float; 2%float] [1] ]).
Proof.
  apply (infect_draws_once_per_candidate sample_virus sample_town _
           (always 0.01%float) 0 2 _ sample_run).
Defined.

(** X17: each infection costs the infector exactly one unit of g_value:
    an infector that starts the call with the integer N ends it with N
    minus the number of rows it marked, and the g_value of a row that was
    not infected at the start is not touched. *)
Theorem infect_g_value_accounting (B : Z) (self : Virus.t)
    (population pop' : Population.t) (uniform : nat -> float) (n n' : nat)
    (trace : list turn) :
  counts_down_exactly B ->
  ids_are_positions (Population.persons population) ->
  Traced.infect self population uniform n = Ok (pop', n', trace) ->
  (forall t N, t ∈ trace ->
     cell (Population.persons population) (infector t) 12%fin
     = Some (Z2F N) ->
     (0 <= N <= B)%Z ->
     cell (Population.persons pop') (infector t) 12%fin
     = Some (Z2F (N - Z.of_nat (length (hits t)))))
  /\ (forall k, k ∉ (infector <$> trace) ->
        cell (Population.persons pop') k 12%fin
        = cell (Population.persons population) k 12%fin).
Proof.
  intros Hexact Hids Hrun.
  rewrite traced_infect_by_position in Hrun by done.
  apply by_position_infect_inv in Hrun.
  pose proof Hrun as (I & _ & _ & G & _)%by_position_loop_effect; [|done].
  apply (by_position_loop_count B) in Hrun as [Hcount _];
    [|done|apply positions_NoDup|done].
  split.
  - intros t N Ht Hg HN. by apply (Hcount t N Ht Hg HN).
  - intros k Hk. apply G. by rewrite <- I.
Qed.

Lemma infect_g_value_accounting_witness :
  cell [ person 0 0 0 1 0; person 1 1 1 1 0; person 2 0.5 (-1) 0 0 ] 0 12%fin
  = Some (Z2F (1 - Z.of_nat (length [1]))).
Proof.
  apply (infect_g_value_accounting 1024 sample_virus sample_town _
           (always 0.01%float) 0 _ _ counts_down_exactly_1024 sample_town_ids
           sample_run)
    with (t := mk_turn 0 [1%float; 2%float] [1]) (N := 1%Z).
  - by left.
  - reflexivity.
  - lia.
Defined.

Lemma nan_not_less (x : float) :
  (nan <? x)%float = false /\ (x <? nan)%float = false.
Proof.
  rewrite !FloatAxioms.ltb_spec.
  change (Prim2SF nan) with S754_nan. unfold SFltb, SFcompare.
  by destruct (Prim2SF x) as [[|]|[|]| |[|] m e].
Qed.

Lemma select_all_false {A} (f : vec float 16 -> bool) (g : vec float 16 -> A)
    (a : ndarray) :
  (forall r, f r = false) -> g <$> List.filter f a = [].
Proof.
  intros Hf. induction a as [|r a IH]; [done|].
  simpl. by rewrite Hf.
Qed.

(** X18: [find_nearby] needs two bounds on each axis, a shorter list is an
    [IndexError]; and a box with a NaN bound contains nobody, since no
    comparison with NaN holds. *)
Theorem find_nearby_edges (persons : ndarray) (x0 x1 y0 y1 : float)
    (x_bounds y_bounds : list float) :
  (length x_bounds < 2 \/ length y_bounds < 2 ->
   Virus.find_nearby persons x_bounds y_bounds = Raise IndexError)
  /\ Virus.find_nearby persons [nan; x1] [y0; y1] = Ok []
  /\ Virus.find_nearby persons [x0; nan] [y0; y1] = Ok []
  /\ Virus.find_nearby persons [x0; x1] [nan; y1] = Ok []
  /\ Virus.find_nearby persons [x0; x1] [y0; nan] = Ok [].
Proof.
  split_and!.
  - unfold Virus.find_nearby, list_getitem.
    destruct x_bounds as [|a [|b xs]], y_bounds as [|c [|d ys]];
      simpl; intros [?|?]; try done; lia.
  - rewrite find_nearby_filter. f_equal. apply select_all_false.
    intros r. unfold nearby_healthy.
    by rewrite (proj1 (nan_not_less _)).
  - rewrite find_nearby_filter. f_equal. apply select_all_false.
    intros r. unfold nearby_healthy.
    rewrite (proj2 (nan_not_less _)). by rewrite andb_false_r.
  - rewrite find_nearby_filter. f_equal. apply select_all_false.
    intros r. unfold nearby_healthy.
    rewrite (proj1 (nan_not_less _)). by rewrite andb_false_r.
  - rewrite find_nearby_filter. f_equal. apply select_all_false.
    intros r. unfold nearby_healthy.
    rewrite (proj2 (nan_not_less _)). by rewrite andb_false_r.
Qed.

Lemma find_nearby_edges_witness :
  Virus.find_nearby (Population.persons sample_town) [0%float] [0%float; 1%float]
  = Raise IndexError.
Proof.
  apply (find_nearby_edges (Population.persons sample_town)
           0%float 0%float 0%float 0%float [0%float] [0%float; 1%float]).
  left. simpl. lia.
Defined.


